(** * Mortgage quote engine and lender/rate update handlers

    A shallow embedding of the server handlers
    [get_mortgage_quotes.ts], [update_lender.ts] and
    [update_mortgage_rate.ts], with the properties of the quote engine
    (eligibility filter, ranking, amortization arithmetic) and of the two
    update handlers (error path, frame).

    Modelling conventions.
    - A JavaScript [number] is an exact rational extended with [Infinity],
      [-Infinity] and [NaN].  The special values follow IEEE 754 as
      JavaScript exposes them (division by zero, propagation of NaN);
      the rounding error of binary64 and the sign of zero are not
      modelled: a zero divisor is taken as [+0].
    - A PostgreSQL [numeric] column holds an exact decimal; the text that
      drizzle hands back for it is identified with the rational it
      denotes, so [parseFloat] of a column and [toString] of a finite
      number are exact.
    - The database is the pair of the two tables the handlers touch; a
      handler is a function from the database to a result (a value or a
      thrown [Error]) and the database afterwards. *)

From Stdlib Require Import ZArith QArith Qround Qabs Qpower List String Ascii Bool Lia Lqa.
From Stdlib Require Import Sorting.Sorted DecimalString.
Import ListNotations.

Local Open Scope Q_scope.

(** ** JavaScript numbers *)

Module JS.

Inductive number : Type :=
| Fin (q : Q)
| PosInf
| NegInf
| NaN.

(** Sign of a product or quotient from the signs of its operands
    ([Eq] stands for zero, and a zero sign against an infinity is NaN). *)
Definition sign_mul (a b : comparison) : comparison :=
  match a, b with
  | Eq, _ | _, Eq => Eq
  | Gt, Gt | Lt, Lt => Gt
  | _, _ => Lt
  end.

Definition inf_of_sign (c : comparison) : number :=
  match c with
  | Gt => PosInf
  | Lt => NegInf
  | Eq => NaN
  end.

Definition sign (x : number) : comparison :=
  match x with
  | Fin q => q ?= 0
  | PosInf => Gt
  | NegInf => Lt
  | NaN => Eq
  end.

(** [x * y] *)
Definition mul (x y : number) : number :=
  match x, y with
  | NaN, _ | _, NaN => NaN
  | Fin a, Fin b => Fin (a * b)
  | _, _ => inf_of_sign (sign_mul (sign x) (sign y))
  end.

(** [x / y]: a finite dividend over zero is an infinity of the sign of
    the dividend, and [0 / 0] is NaN. *)
Definition div (x y : number) : number :=
  match x, y with
  | NaN, _ | _, NaN => NaN
  | Fin a, Fin b => if Qeq_bool b 0 then inf_of_sign (a ?= 0) else Fin (a / b)
  | Fin _, _ => Fin 0
  | _, Fin b => inf_of_sign (sign_mul (sign x) (if Qeq_bool b 0 then Gt else b ?= 0))
  | _, _ => NaN
  end.

(** [x + y] *)
Definition add (x y : number) : number :=
  match x, y with
  | NaN, _ | _, NaN => NaN
  | Fin a, Fin b => Fin (a + b)
  | PosInf, NegInf | NegInf, PosInf => NaN
  | PosInf, _ | _, PosInf => PosInf
  | NegInf, _ | _, NegInf => NegInf
  end.

Definition neg (x : number) : number :=
  match x with
  | Fin a => Fin (- a)
  | PosInf => NegInf
  | NegInf => PosInf
  | NaN => NaN
  end.

(** [x - y] *)
Definition sub (x y : number) : number := add x (neg y).

(** [x === y] on numbers: NaN is equal to nothing. *)
Definition strict_eq (x y : number) : bool :=
  match x, y with
  | Fin a, Fin b => Qeq_bool a b
  | PosInf, PosInf | NegInf, NegInf => true
  | _, _ => false
  end.

(** [x <= y] on numbers: false as soon as one side is NaN. *)
Definition le (x y : number) : bool :=
  match x, y with
  | NaN, _ | _, NaN => false
  | Fin a, Fin b => Qle_bool a b
  | NegInf, _ | _, PosInf => true
  | _, _ => false
  end.

(** [Math.round(x)]: the integer nearest to [x], a tie going up
    (towards +Infinity): [floor(x + 1/2)]. *)
Definition Math_round (x : number) : number :=
  match x with
  | Fin a => Fin (inject_Z (Qfloor (a + (1 # 2))))
  | _ => x
  end.

(** [Math.pow(x, n)] for an integer exponent [n]. *)
Definition Math_pow (x : number) (n : Z) : number :=
  if (n =? 0)%Z then Fin 1 else
  match x with
  | NaN => NaN
  | Fin a =>
      if Qeq_bool a 0 && (n <? 0)%Z then PosInf else Fin (a ^ n)
  | PosInf => if (0 <? n)%Z then PosInf else Fin 0
  | NegInf =>
      if (0 <? n)%Z then (if Z.odd n then NegInf else PosInf) else Fin 0
  end.

Definition of_Z (z : Z) : number := Fin (inject_Z z).

End JS.

Import JS.

(** A finite number is written as the rational it holds. *)
Coercion JS.Fin : Q >-> JS.number.

Declare Scope js_scope.
Delimit Scope js_scope with js.
Infix "*" := JS.mul : js_scope.
Infix "/" := JS.div : js_scope.
Infix "+" := JS.add : js_scope.
Infix "-" := JS.sub : js_scope.
Notation "x === y" := (JS.strict_eq x y) (at level 70, no associativity) : js_scope.

(** ** Amortization arithmetic ([get_mortgage_quotes.ts]) *)

(** [calculateMonthlyPayment(loanAmount, interestRate, loanTermYears)].
    The term is an integer: the only caller passes [parseInt] of the
    [loan_term] enumeration. *)
Definition calculateMonthlyPayment (loanAmount interestRate : number) (loanTermYears : Z) : number :=
  let monthlyRate := (interestRate / Fin 100 / Fin 12)%js in
  let numberOfPayments := (loanTermYears * 12)%Z in
  if (monthlyRate === Fin 0)%js then
    (loanAmount / of_Z numberOfPayments)%js
  else
    let monthlyPayment :=
      (loanAmount *
       (monthlyRate * Math_pow (Fin 1 + monthlyRate) numberOfPayments) /
       (Math_pow (Fin 1 + monthlyRate) numberOfPayments - Fin 1))%js in
    (Math_round (monthlyPayment * Fin 100) / Fin 100)%js.

(** [calculateTotalInterest(loanAmount, interestRate, loanTermYears)] *)
Definition calculateTotalInterest (loanAmount interestRate : number) (loanTermYears : Z) : number :=
  let monthlyPayment := calculateMonthlyPayment loanAmount interestRate loanTermYears in
  let totalPayments := (monthlyPayment * of_Z loanTermYears * Fin 12)%js in
  (Math_round ((totalPayments - loanAmount) * Fin 100) / Fin 100)%js.

(** ** Data model *)

(** Modelled from the spec: the [loan_type] enumeration of [schema.ts]
    (conventional | fha | va | usda | jumbo), which is not among the
    sources; the client form offers the same five values. *)
Inductive LoanType : Type := conventional | fha | va | usda | jumbo.

(** Modelled from the spec: the [loan_term] enumeration of [schema.ts]
    ('15' | '20' | '25' | '30', in years). *)
Inductive LoanTerm : Type := term_15 | term_20 | term_25 | term_30.

Inductive PropertyType : Type := single_family | condo | townhouse | multi_family.
Inductive OccupancyType : Type := primary | secondary | investment.

Definition LoanType_eqb (a b : LoanType) : bool :=
  match a, b with
  | conventional, conventional | fha, fha | va, va | usda, usda | jumbo, jumbo => true
  | _, _ => false
  end.

Definition LoanTerm_eqb (a b : LoanTerm) : bool :=
  match a, b with
  | term_15, term_15 | term_20, term_20 | term_25, term_25 | term_30, term_30 => true
  | _, _ => false
  end.

(** [parseInt] on the text of a loan term. *)
Definition parseInt (t : LoanTerm) : Z :=
  match t with
  | term_15 => 15
  | term_20 => 20
  | term_25 => 25
  | term_30 => 30
  end.

(** The text of a [numeric] column, read as the decimal it denotes. *)
Definition numeric : Type := Q.

Definition parseFloat (s : numeric) : number := Fin s.

(** A [timestamp] column, as milliseconds since the epoch. *)
Definition timestamp : Type := Z.

(** A row of [lendersTable]. *)
Module Lender.
Record t : Type := mk {
  id : Z;
  name : string;
  logo_url : option string;
  website_url : option string;
  phone : option string;
  email : option string;
  is_active : bool;
  created_at : timestamp;
  updated_at : timestamp
}.
End Lender.

(** A row of [mortgageRatesTable]. *)
Module MortgageRate.
Record t : Type := mk {
  id : Z;
  lender_id : Z;
  loan_type : LoanType;
  loan_term : LoanTerm;
  interest_rate : numeric;
  apr : numeric;
  points : numeric;
  min_credit_score : Z;
  max_loan_amount : numeric;
  min_down_payment_percent : numeric;
  closing_costs : option numeric;
  is_active : bool;
  created_at : timestamp;
  updated_at : timestamp
}.
End MortgageRate.

(** The borrower profile, [CreateMortgageQuoteRequestInput].  Its numbers
    arrive as JSON and are finite. *)
Module Input.
Record t : Type := mk {
  loan_amount : Q;
  property_value : Q;
  down_payment : Q;
  credit_score : Z;
  loan_type : LoanType;
  loan_term : LoanTerm;
  property_type : PropertyType;
  occupancy_type : OccupancyType;
  zip_code : string;
  debt_to_income_ratio : option Q
}.
End Input.

(** A quote, [MortgageQuote]. *)
Module Quote.
Record t : Type := mk {
  rate_id : Z;
  lender_id : Z;
  lender_name : string;
  lender_logo_url : option string;
  loan_type : LoanType;
  loan_term : LoanTerm;
  interest_rate : number;
  apr : number;
  points : number;
  monthly_payment : number;
  total_interest : number;
  closing_costs : option number;
  down_payment_percent : number;
  loan_to_value_ratio : number
}.
End Quote.

(** ** The database and the handler monad *)

Record DB : Type := mkDB {
  lendersTable : list Lender.t;
  mortgageRatesTable : list MortgageRate.t
}.

Inductive Result (A : Type) : Type :=
| Ok (value : A)
| Throw (message : string).
Arguments Ok {A} value.
Arguments Throw {A} message.

Definition Handler (A : Type) : Type := DB -> Result A * DB.

Definition ret {A} (a : A) : Handler A := fun db => (Ok a, db).

Definition throw {A} (message : string) : Handler A := fun db => (Throw message, db).

Definition bind {A B} (m : Handler A) (k : A -> Handler B) : Handler B :=
  fun db =>
    match m db with
    | (Ok a, db') => k a db'
    | (Throw e, db') => (Throw e, db')
    end.

Notation "x <- m ;; k" := (bind m (fun x => k))
  (at level 61, m at next level, right associativity).

(** [try { body } catch (error) { console.error(...); throw error; }]:
    the error is thrown again as it is. *)
Definition try_rethrow {A} (body : Handler A) : Handler A :=
  fun db =>
    match body db with
    | (Ok a, db') => (Ok a, db')
    | (Throw e, db') => (Throw e, db')
    end.

(** *** Queries *)

Module SQL.

(** Order of PostgreSQL's [numeric] type, which the comparison of a
    column with a parameter uses: -Infinity below every finite value,
    Infinity above, and NaN equal to itself and above everything. *)
Definition le (x y : number) : bool :=
  match x, y with
  | _, NaN => true
  | NaN, _ => false
  | NegInf, _ | _, PosInf => true
  | Fin a, Fin b => Qle_bool a b
  | _, _ => false
  end.

(** [lte(column, value)] and [gte(column, value)] on a numeric column. *)
Definition lte (column : numeric) (value : number) : bool := le (Fin column) value.
Definition gte (column : numeric) (value : number) : bool := le value (Fin column).

(** [from(left).innerJoin(right, on)] *)
Definition innerJoin {A B} (left : list A) (right : list B) (on : A -> B -> bool) : list (A * B) :=
  flat_map (fun a => map (fun b => (a, b)) (filter (on a) right)) left.

Section OrderBy.
Context {A : Type} (key : A -> numeric).

Fixpoint insert_asc (x : A) (l : list A) : list A :=
  match l with
  | [] => [x]
  | y :: l' => if Qle_bool (key x) (key y) then x :: l else y :: insert_asc x l'
  end.

(** [orderBy(asc(key))]: rows in ascending order of the key; rows of
    equal key stay in the order they had. *)
Definition orderBy_asc (l : list A) : list A := fold_right insert_asc [] l.
End OrderBy.

(** [db.select().from(lendersTable).where(p)] *)
Definition select_lenders (p : Lender.t -> bool) : Handler (list Lender.t) :=
  fun db => (Ok (filter p (lendersTable db)), db).

(** [db.select().from(mortgageRatesTable).where(p)] *)
Definition select_rates (p : MortgageRate.t -> bool) : Handler (list MortgageRate.t) :=
  fun db => (Ok (filter p (mortgageRatesTable db)), db).

(** [db.update(lendersTable).set(f).where(p).returning()] *)
Definition update_lenders (f : Lender.t -> Lender.t) (p : Lender.t -> bool)
  : Handler (list Lender.t) :=
  fun db =>
    (Ok (map f (filter p (lendersTable db))),
     mkDB (map (fun row => if p row then f row else row) (lendersTable db))
          (mortgageRatesTable db)).

(** [db.update(mortgageRatesTable).set(f).where(p).returning()] *)
Definition update_rates (f : MortgageRate.t -> MortgageRate.t) (p : MortgageRate.t -> bool)
  : Handler (list MortgageRate.t) :=
  fun db =>
    (Ok (map f (filter p (mortgageRatesTable db))),
     mkDB (lendersTable db)
          (map (fun row => if p row then f row else row) (mortgageRatesTable db))).

End SQL.

(** ** [getMortgageQuotes] ([get_mortgage_quotes.ts]) *)

(** The row shape selected by the query: columns of the rate and of its
    lender. *)
Module QuoteRow.
Record t : Type := mk {
  rate_id : Z;
  lender_id : Z;
  lender_name : string;
  lender_logo_url : option string;
  loan_type : LoanType;
  loan_term : LoanTerm;
  interest_rate : numeric;
  apr : numeric;
  points : numeric;
  min_credit_score : Z;
  max_loan_amount : numeric;
  min_down_payment_percent : numeric;
  closing_costs : option numeric
}.
End QuoteRow.

Definition select_columns (joined : MortgageRate.t * Lender.t) : QuoteRow.t :=
  let (rate, lender) := joined in
  {| QuoteRow.rate_id := MortgageRate.id rate;
     QuoteRow.lender_id := MortgageRate.lender_id rate;
     QuoteRow.lender_name := Lender.name lender;
     QuoteRow.lender_logo_url := Lender.logo_url lender;
     QuoteRow.loan_type := MortgageRate.loan_type rate;
     QuoteRow.loan_term := MortgageRate.loan_term rate;
     QuoteRow.interest_rate := MortgageRate.interest_rate rate;
     QuoteRow.apr := MortgageRate.apr rate;
     QuoteRow.points := MortgageRate.points rate;
     QuoteRow.min_credit_score := MortgageRate.min_credit_score rate;
     QuoteRow.max_loan_amount := MortgageRate.max_loan_amount rate;
     QuoteRow.min_down_payment_percent := MortgageRate.min_down_payment_percent rate;
     QuoteRow.closing_costs := MortgageRate.closing_costs rate |}.

(** [const downPaymentPercent = (input.down_payment / input.property_value) * 100] *)
Definition downPaymentPercent (input : Input.t) : number :=
  (Input.down_payment input / Input.property_value input * Fin 100)%js.

(** [const loanToValueRatio = (input.loan_amount / input.property_value) * 100] *)
Definition loanToValueRatio (input : Input.t) : number :=
  (Input.loan_amount input / Input.property_value input * Fin 100)%js.

(** The [where(and(...))] clause of the query. *)
Definition matches_criteria (input : Input.t) (joined : MortgageRate.t * Lender.t) : bool :=
  let (rate, lender) := joined in
  LoanType_eqb (MortgageRate.loan_type rate) (Input.loan_type input)
  && LoanTerm_eqb (MortgageRate.loan_term rate) (Input.loan_term input)
  && (MortgageRate.min_credit_score rate <=? Input.credit_score input)%Z
  && SQL.gte (MortgageRate.max_loan_amount rate) (Input.loan_amount input)
  && SQL.lte (MortgageRate.min_down_payment_percent rate) (downPaymentPercent input)
  && Bool.eqb (MortgageRate.is_active rate) true
  && Bool.eqb (Lender.is_active lender) true.

(** The joined rows that pass the [where] clause, in catalog order. *)
Definition candidates (input : Input.t) (db : DB) : list (MortgageRate.t * Lender.t) :=
  filter (matches_criteria input)
    (SQL.innerJoin (mortgageRatesTable db) (lendersTable db)
       (fun rate lender => (MortgageRate.lender_id rate =? Lender.id lender)%Z)).

(** The whole query: join, filter, order by [apr], select the columns. *)
Definition query_quote_rows (input : Input.t) : Handler (list QuoteRow.t) :=
  fun db =>
    (Ok (map select_columns
           (SQL.orderBy_asc (fun joined => MortgageRate.apr (fst joined))
              (candidates input db))),
     db).

(** The body of [results.map(result => ...)]. *)
Definition to_quote (input : Input.t) (result : QuoteRow.t) : Quote.t :=
  let interestRate := parseFloat (QuoteRow.interest_rate result) in
  let apr := parseFloat (QuoteRow.apr result) in
  let points := parseFloat (QuoteRow.points result) in
  let closingCosts :=
    match QuoteRow.closing_costs result with
    | Some c => Some (parseFloat c)
    | None => None
    end in
  let monthlyPayment :=
    calculateMonthlyPayment (Input.loan_amount input) interestRate
      (parseInt (Input.loan_term input)) in
  let totalInterest :=
    calculateTotalInterest (Input.loan_amount input) interestRate
      (parseInt (Input.loan_term input)) in
  {| Quote.rate_id := QuoteRow.rate_id result;
     Quote.lender_id := QuoteRow.lender_id result;
     Quote.lender_name := QuoteRow.lender_name result;
     Quote.lender_logo_url := QuoteRow.lender_logo_url result;
     Quote.loan_type := QuoteRow.loan_type result;
     Quote.loan_term := QuoteRow.loan_term result;
     Quote.interest_rate := interestRate;
     Quote.apr := apr;
     Quote.points := points;
     Quote.monthly_payment := monthlyPayment;
     Quote.total_interest := totalInterest;
     Quote.closing_costs := closingCosts;
     Quote.down_payment_percent :=
       (Math_round (downPaymentPercent input * Fin 100) / Fin 100)%js;
     Quote.loan_to_value_ratio :=
       (Math_round (loanToValueRatio input * Fin 100) / Fin 100)%js |}.

Definition getMortgageQuotes (input : Input.t) : Handler (list Quote.t) :=
  try_rethrow
    (results <- query_quote_rows input ;;
     ret (map (to_quote input) results)).

(** ** [updateLender] ([update_lender.ts]) *)

(** An optional property of an input: [None] is [undefined]; a nullable
    one holds [Some None] for [null]. *)
Module UpdateLenderInput.
Record t : Type := mk {
  id : Z;
  name : option string;
  logo_url : option (option string);
  website_url : option (option string);
  phone : option (option string);
  email : option (option string);
  is_active : option bool
}.
End UpdateLenderInput.

(** [Partial<typeof lendersTable.$inferInsert>], the argument of [set]. *)
Module LenderSet.
Record t : Type := mk {
  name : option string;
  logo_url : option (option string);
  website_url : option (option string);
  phone : option (option string);
  email : option (option string);
  is_active : option bool;
  updated_at : option timestamp
}.
End LenderSet.

(** A column takes the value of the update when it has one. *)
Definition assign {A} (new : option A) (old : A) : A :=
  match new with
  | Some v => v
  | None => old
  end.

(** [.set(updateData)] on one row of [lendersTable]. *)
Definition set_lender (updateData : LenderSet.t) (row : Lender.t) : Lender.t :=
  {| Lender.id := Lender.id row;
     Lender.name := assign (LenderSet.name updateData) (Lender.name row);
     Lender.logo_url := assign (LenderSet.logo_url updateData) (Lender.logo_url row);
     Lender.website_url := assign (LenderSet.website_url updateData) (Lender.website_url row);
     Lender.phone := assign (LenderSet.phone updateData) (Lender.phone row);
     Lender.email := assign (LenderSet.email updateData) (Lender.email row);
     Lender.is_active := assign (LenderSet.is_active updateData) (Lender.is_active row);
     Lender.created_at := Lender.created_at row;
     Lender.updated_at := assign (LenderSet.updated_at updateData) (Lender.updated_at row) |}.

(** The decimal text of an integer, as a template literal prints it. *)
Definition show_int (z : Z) : string := NilZero.string_of_int (Z.to_int z).

(** [eq(lendersTable.id, id)] *)
Definition lender_id_eq (id : Z) (row : Lender.t) : bool := (Lender.id row =? id)%Z.

(** The [updateData] object: [updated_at] is set, and each property of
    the input is copied when it is not undefined (and stays undefined
    otherwise). *)
Definition lender_updateData (now : timestamp) (input : UpdateLenderInput.t) : LenderSet.t :=
  {| LenderSet.updated_at := Some now;
     LenderSet.name := UpdateLenderInput.name input;
     LenderSet.logo_url := UpdateLenderInput.logo_url input;
     LenderSet.website_url := UpdateLenderInput.website_url input;
     LenderSet.phone := UpdateLenderInput.phone input;
     LenderSet.email := UpdateLenderInput.email input;
     LenderSet.is_active := UpdateLenderInput.is_active input |}.

(** [updateLender(input)]; [now] is the value of [new Date()] during
    the call.  [result[0]] of an empty array is [undefined] ([None]). *)
Definition updateLender (now : timestamp) (input : UpdateLenderInput.t)
  : Handler (option Lender.t) :=
  try_rethrow
    (existingLender <- SQL.select_lenders (lender_id_eq (UpdateLenderInput.id input)) ;;
     if (Z.of_nat (List.length existingLender) =? 0)%Z then
       throw ("Lender with id " ++ show_int (UpdateLenderInput.id input) ++ " not found")%string
     else
       let updateData := lender_updateData now input in
       result <-
         SQL.update_lenders (set_lender updateData)
           (lender_id_eq (UpdateLenderInput.id input)) ;;
       ret (hd_error result)).

(** ** [updateMortgageRate] ([update_mortgage_rate.ts]) *)

Module UpdateMortgageRateInput.
Record t : Type := mk {
  id : Z;
  lender_id : option Z;
  loan_type : option LoanType;
  loan_term : option LoanTerm;
  interest_rate : option Q;
  apr : option Q;
  points : option Q;
  min_credit_score : option Z;
  max_loan_amount : option Q;
  min_down_payment_percent : option Q;
  closing_costs : option (option Q);
  is_active : option bool
}.
End UpdateMortgageRateInput.

(** [updateData: Record<string, any>], the argument of [set]. *)
Module RateSet.
Record t : Type := mk {
  lender_id : option Z;
  loan_type : option LoanType;
  loan_term : option LoanTerm;
  interest_rate : option numeric;
  apr : option numeric;
  points : option numeric;
  min_credit_score : option Z;
  max_loan_amount : option numeric;
  min_down_payment_percent : option numeric;
  closing_costs : option (option numeric);
  is_active : option bool;
  updated_at : option timestamp
}.
End RateSet.

(** [x.toString()] of a finite number, as the text of a numeric value. *)
Definition toString (x : Q) : numeric := x.

(** [.set(updateData)] on one row of [mortgageRatesTable]. *)
Definition set_rate (updateData : RateSet.t) (row : MortgageRate.t) : MortgageRate.t :=
  {| MortgageRate.id := MortgageRate.id row;
     MortgageRate.lender_id := assign (RateSet.lender_id updateData) (MortgageRate.lender_id row);
     MortgageRate.loan_type := assign (RateSet.loan_type updateData) (MortgageRate.loan_type row);
     MortgageRate.loan_term := assign (RateSet.loan_term updateData) (MortgageRate.loan_term row);
     MortgageRate.interest_rate :=
       assign (RateSet.interest_rate updateData) (MortgageRate.interest_rate row);
     MortgageRate.apr := assign (RateSet.apr updateData) (MortgageRate.apr row);
     MortgageRate.points := assign (RateSet.points updateData) (MortgageRate.points row);
     MortgageRate.min_credit_score :=
       assign (RateSet.min_credit_score updateData) (MortgageRate.min_credit_score row);
     MortgageRate.max_loan_amount :=
       assign (RateSet.max_loan_amount updateData) (MortgageRate.max_loan_amount row);
     MortgageRate.min_down_payment_percent :=
       assign (RateSet.min_down_payment_percent updateData)
         (MortgageRate.min_down_payment_percent row);
     MortgageRate.closing_costs :=
       assign (RateSet.closing_costs updateData) (MortgageRate.closing_costs row);
     MortgageRate.is_active := assign (RateSet.is_active updateData) (MortgageRate.is_active row);
     MortgageRate.created_at := MortgageRate.created_at row;
     MortgageRate.updated_at :=
       assign (RateSet.updated_at updateData) (MortgageRate.updated_at row) |}.

(** The returned [MortgageRate]: the row with its numeric columns parsed. *)
Module MortgageRateValue.
Record t : Type := mk {
  row : MortgageRate.t;
  interest_rate : number;
  apr : number;
  points : number;
  max_loan_amount : number;
  min_down_payment_percent : number;
  closing_costs : option number
}.
End MortgageRateValue.

(** [eq(mortgageRatesTable.id, id)] *)
Definition rate_id_eq (id : Z) (row : MortgageRate.t) : bool := (MortgageRate.id row =? id)%Z.

(** The [updateData] object: [updated_at] is set, and each property of
    the input is copied, numbers as their text, when it is not
    undefined. *)
Definition rate_updateData (now : timestamp) (input : UpdateMortgageRateInput.t) : RateSet.t :=
  {| RateSet.updated_at := Some now;
     RateSet.lender_id := UpdateMortgageRateInput.lender_id input;
     RateSet.loan_type := UpdateMortgageRateInput.loan_type input;
     RateSet.loan_term := UpdateMortgageRateInput.loan_term input;
     RateSet.interest_rate := option_map toString (UpdateMortgageRateInput.interest_rate input);
     RateSet.apr := option_map toString (UpdateMortgageRateInput.apr input);
     RateSet.points := option_map toString (UpdateMortgageRateInput.points input);
     RateSet.min_credit_score := UpdateMortgageRateInput.min_credit_score input;
     RateSet.max_loan_amount :=
       option_map toString (UpdateMortgageRateInput.max_loan_amount input);
     RateSet.min_down_payment_percent :=
       option_map toString (UpdateMortgageRateInput.min_down_payment_percent input);
     RateSet.closing_costs :=
       option_map (option_map toString) (UpdateMortgageRateInput.closing_costs input);
     RateSet.is_active := UpdateMortgageRateInput.is_active input |}.

(** The returned object: the updated row, its numeric columns parsed. *)
Definition to_MortgageRate (updatedRate : MortgageRate.t) : MortgageRateValue.t :=
  {| MortgageRateValue.row := updatedRate;
     MortgageRateValue.interest_rate := parseFloat (MortgageRate.interest_rate updatedRate);
     MortgageRateValue.apr := parseFloat (MortgageRate.apr updatedRate);
     MortgageRateValue.points := parseFloat (MortgageRate.points updatedRate);
     MortgageRateValue.max_loan_amount := parseFloat (MortgageRate.max_loan_amount updatedRate);
     MortgageRateValue.min_down_payment_percent :=
       parseFloat (MortgageRate.min_down_payment_percent updatedRate);
     MortgageRateValue.closing_costs :=
       option_map parseFloat (MortgageRate.closing_costs updatedRate) |}.

(** The check made when [lender_id] is being updated. *)
Definition verify_lender (lender_id : option Z) : Handler unit :=
  match lender_id with
  | Some lender_id =>
      lender <- SQL.select_lenders (lender_id_eq lender_id) ;;
      if (Z.of_nat (List.length lender) =? 0)%Z then
        throw ("Lender with ID " ++ show_int lender_id ++ " not found")%string
      else ret tt
  | None => ret tt
  end.

(** [updateMortgageRate(input)]; reading a property of [result[0]] of
    an empty array is a TypeError. *)
Definition updateMortgageRate (now : timestamp) (input : UpdateMortgageRateInput.t)
  : Handler MortgageRateValue.t :=
  try_rethrow
    (existingRate <- SQL.select_rates (rate_id_eq (UpdateMortgageRateInput.id input)) ;;
     if (Z.of_nat (List.length existingRate) =? 0)%Z then
       throw ("Mortgage rate with ID " ++ show_int (UpdateMortgageRateInput.id input)
              ++ " not found")%string
     else
       _ <- verify_lender (UpdateMortgageRateInput.lender_id input) ;;
       let updateData := rate_updateData now input in
       result <-
         SQL.update_rates (set_rate updateData)
           (rate_id_eq (UpdateMortgageRateInput.id input)) ;;
       match result with
       | updatedRate :: _ => ret (to_MortgageRate updatedRate)
       | [] => throw "TypeError: undefined is not an object"%string
       end).

(** ** Notions used by the statements *)

(** Rows in ascending order of a numeric key. *)
Definition key_le {A} (key : A -> numeric) (a b : A) : Prop := key a <= key b.

(** Quotes in non-decreasing order of [apr], by JavaScript's [<=]. *)
Definition apr_le (q1 q2 : Quote.t) : Prop :=
  JS.le (Quote.apr q1) (Quote.apr q2) = true.

(** The quote made from a rate record and its lender. *)
Definition quote_of (input : Input.t) (rate : MortgageRate.t) (lender : Lender.t) : Quote.t :=
  to_quote input (select_columns (rate, lender)).

(** [s.includes(sub)] *)
Fixpoint includes (sub s : string) : bool :=
  (String.prefix sub s ||
   match s with
   | EmptyString => false
   | String _ s' => includes sub s'
   end)%bool.

(** Rounding to 2 decimal places, half away from zero, as the
    specification words it. *)
Definition round_half_away_2dp (x : Q) : Q :=
  if Qle_bool 0 x
  then inject_Z (Qfloor (x * 100 + (1 # 2))) / 100
  else - (inject_Z (Qfloor (- x * 100 + (1 # 2))) / 100).



(** A column after an update: the given value when the input has the
    property, the prior value when it is omitted. *)
Definition keeps_or_takes {A} (given : option A) (old new : A) : Prop :=
  match given with
  | Some v => new = v
  | None => new = old
  end.

(** A lender row before and after an update that applies to it. *)
Definition lender_updated (now : timestamp) (input : UpdateLenderInput.t)
    (old new : Lender.t) : Prop :=
  Lender.id new = Lender.id old /\
  Lender.created_at new = Lender.created_at old /\
  Lender.updated_at new = now /\
  keeps_or_takes (UpdateLenderInput.name input) (Lender.name old) (Lender.name new) /\
  keeps_or_takes (UpdateLenderInput.logo_url input) (Lender.logo_url old) (Lender.logo_url new) /\
  keeps_or_takes (UpdateLenderInput.website_url input)
    (Lender.website_url old) (Lender.website_url new) /\
  keeps_or_takes (UpdateLenderInput.phone input) (Lender.phone old) (Lender.phone new) /\
  keeps_or_takes (UpdateLenderInput.email input) (Lender.email old) (Lender.email new) /\
  keeps_or_takes (UpdateLenderInput.is_active input)
    (Lender.is_active old) (Lender.is_active new).

(** A rate row before and after an update that applies to it. *)
Definition rate_updated (now : timestamp) (input : UpdateMortgageRateInput.t)
    (old new : MortgageRate.t) : Prop :=
  MortgageRate.id new = MortgageRate.id old /\
  MortgageRate.created_at new = MortgageRate.created_at old /\
  MortgageRate.updated_at new = now /\
  keeps_or_takes (UpdateMortgageRateInput.lender_id input)
    (MortgageRate.lender_id old) (MortgageRate.lender_id new) /\
  keeps_or_takes (UpdateMortgageRateInput.loan_type input)
    (MortgageRate.loan_type old) (MortgageRate.loan_type new) /\
  keeps_or_takes (UpdateMortgageRateInput.loan_term input)
    (MortgageRate.loan_term old) (MortgageRate.loan_term new) /\
  keeps_or_takes (UpdateMortgageRateInput.interest_rate input)
    (MortgageRate.interest_rate old) (MortgageRate.interest_rate new) /\
  keeps_or_takes (UpdateMortgageRateInput.apr input)
    (MortgageRate.apr old) (MortgageRate.apr new) /\
  keeps_or_takes (UpdateMortgageRateInput.points input)
    (MortgageRate.points old) (MortgageRate.points new) /\
  keeps_or_takes (UpdateMortgageRateInput.min_credit_score input)
    (MortgageRate.min_credit_score old) (MortgageRate.min_credit_score new) /\
  keeps_or_takes (UpdateMortgageRateInput.max_loan_amount input)
    (MortgageRate.max_loan_amount old) (MortgageRate.max_loan_amount new) /\
  keeps_or_takes (UpdateMortgageRateInput.min_down_payment_percent input)
    (MortgageRate.min_down_payment_percent old) (MortgageRate.min_down_payment_percent new) /\
  keeps_or_takes (UpdateMortgageRateInput.closing_costs input)
    (MortgageRate.closing_costs old) (MortgageRate.closing_costs new) /\
  keeps_or_takes (UpdateMortgageRateInput.is_active input)
    (MortgageRate.is_active old) (MortgageRate.is_active new).

(** ** Catalogs and profiles of the test suite *)

(** [testQuoteRequest] of the tests of [getMortgageQuotes]. *)
Definition testQuoteRequest : Input.t :=
  {| Input.loan_amount := 400000;
     Input.property_value := 500000;
     Input.down_payment := 100000;
     Input.credit_score := 750;
     Input.loan_type := conventional;
     Input.loan_term := term_30;
     Input.property_type := single_family;
     Input.occupancy_type := primary;
     Input.zip_code := "90210";
     Input.debt_to_income_ratio := Some 35.5 |}.


Definition testBank : Lender.t :=
  {| Lender.id := 1;
     Lender.name := "Test Bank";
     Lender.logo_url := None;
     Lender.website_url := None;
     Lender.phone := None;
     Lender.email := None;
     Lender.is_active := true;
     Lender.created_at := 1000%Z;
     Lender.updated_at := 1000%Z |}.

(** A conventional 30-year rate of [testBank] with the eligibility
    bounds the tests use. *)
Definition testRate (id : Z) (interest_rate apr : numeric) : MortgageRate.t :=
  {| MortgageRate.id := id;
     MortgageRate.lender_id := 1;
     MortgageRate.loan_type := conventional;
     MortgageRate.loan_term := term_30;
     MortgageRate.interest_rate := interest_rate;
     MortgageRate.apr := apr;
     MortgageRate.points := 0;
     MortgageRate.min_credit_score := 700;
     MortgageRate.max_loan_amount := 500000;
     MortgageRate.min_down_payment_percent := 10;
     MortgageRate.closing_costs := None;
     MortgageRate.is_active := true;
     MortgageRate.created_at := 1000%Z;
     MortgageRate.updated_at := 1000%Z |}.

(** 'should calculate monthly payment correctly' *)
Definition sixPercentCatalog : DB := mkDB [testBank] [testRate 1 6.000 6.200].

(** 'should handle zero interest rate edge case' *)
Definition zeroRateCatalog : DB := mkDB [testBank] [testRate 1 0 0].

(** 'should sort results by APR in ascending order' *)
Definition twoRatesCatalog : DB :=
  mkDB [testBank] [testRate 1 7.000 7.500; testRate 2 6.500 6.750].

(** 'should throw error when lender does not exist' *)
Definition nonExistentLenderUpdate : UpdateLenderInput.t :=
  {| UpdateLenderInput.id := 99999;
     UpdateLenderInput.name := Some "Non-existent Lender"%string;
     UpdateLenderInput.logo_url := None;
     UpdateLenderInput.website_url := None;
     UpdateLenderInput.phone := None;
     UpdateLenderInput.email := None;
     UpdateLenderInput.is_active := None |}.

(** 'should update only provided fields' *)
Definition partialLenderUpdate : UpdateLenderInput.t :=
  {| UpdateLenderInput.id := 1;
     UpdateLenderInput.name := Some "Partially Updated Lender"%string;
     UpdateLenderInput.logo_url := None;
     UpdateLenderInput.website_url := None;
     UpdateLenderInput.phone := None;
     UpdateLenderInput.email := Some (Some "newemail@example.com"%string);
     UpdateLenderInput.is_active := None |}.

(** ** The other handlers *)

(** [s ? parseFloat(s) : null] on a nullable numeric column: the text of
    a numeric value is never the empty string, so it is truthy exactly
    when it is not [null]. *)
Definition parse_nullable (s : option numeric) : option number :=
  match s with
  | Some c => Some (parseFloat c)
  | None => None
  end.

(** [x?.toString() || null] on a nullable number: the text of a number
    is never empty, so only [null] (or [undefined]) gives [null]. *)
Definition toString_or_null (x : option Q) : option numeric :=
  match x with
  | Some v => Some (toString v)
  | None => None
  end.

(** *** [getLenders] ([create_mortgage_quote_request.ts], second part) *)

Definition getLenders : Handler (list Lender.t) :=
  try_rethrow
    (result <- SQL.select_lenders (fun row => Bool.eqb (Lender.is_active row) true) ;;
     ret result).

(** *** [getMortgageRates] ([App.tsx], second part) *)

(** The query: rates joined with their lender, where the rate is
    active. *)
Definition query_active_rates : Handler (list (MortgageRate.t * Lender.t)) :=
  fun db =>
    (Ok (filter (fun joined => Bool.eqb (MortgageRate.is_active (fst joined)) true)
           (SQL.innerJoin (mortgageRatesTable db) (lendersTable db)
              (fun rate lender => (MortgageRate.lender_id rate =? Lender.id lender)%Z))),
     db).

(** The object built from [result.mortgage_rates]: the columns that are
    copied as they are stand in [row], the numeric ones are parsed. *)
Definition flatten_rate (result : MortgageRate.t * Lender.t) : MortgageRateValue.t :=
  let mortgage_rates := fst result in
  {| MortgageRateValue.row := mortgage_rates;
     MortgageRateValue.interest_rate := parseFloat (MortgageRate.interest_rate mortgage_rates);
     MortgageRateValue.apr := parseFloat (MortgageRate.apr mortgage_rates);
     MortgageRateValue.points := parseFloat (MortgageRate.points mortgage_rates);
     MortgageRateValue.max_loan_amount :=
       parseFloat (MortgageRate.max_loan_amount mortgage_rates);
     MortgageRateValue.min_down_payment_percent :=
       parseFloat (MortgageRate.min_down_payment_percent mortgage_rates);
     MortgageRateValue.closing_costs :=
       parse_nullable (MortgageRate.closing_costs mortgage_rates) |}.

Definition getMortgageRates : Handler (list MortgageRateValue.t) :=
  try_rethrow
    (results <- query_active_rates ;;
     ret (map flatten_rate results)).

(** *** Inserts *)

(** The column values the database fills in on an insert: the serial
    [id] and the defaults of the timestamps.  They are declared in
    [db/schema], which is not among the sources, and are taken as
    given. *)
Module Generated.
Record t : Type := mk {
  id : Z;
  created_at : timestamp;
  updated_at : timestamp
}.
End Generated.

(** [db.insert(lendersTable).values(row).returning()] *)
Definition insert_lender (row : Lender.t) : Handler (list Lender.t) :=
  fun db => (Ok [row], mkDB (lendersTable db ++ [row]) (mortgageRatesTable db)).

(** [db.insert(mortgageRatesTable).values(row).returning()] *)
Definition insert_rate (row : MortgageRate.t) : Handler (list MortgageRate.t) :=
  fun db => (Ok [row], mkDB (lendersTable db) (mortgageRatesTable db ++ [row])).

(** *** [createLender] ([create_lender.ts]) *)

Module CreateLenderInput.
Record t : Type := mk {
  name : string;
  logo_url : option string;
  website_url : option string;
  phone : option string;
  email : option string;
  is_active : bool
}.
End CreateLenderInput.

(** The row that [values({...})] gives, with the generated columns. *)
Definition lender_values (generated : Generated.t) (input : CreateLenderInput.t) : Lender.t :=
  {| Lender.id := Generated.id generated;
     Lender.name := CreateLenderInput.name input;
     Lender.logo_url := CreateLenderInput.logo_url input;
     Lender.website_url := CreateLenderInput.website_url input;
     Lender.phone := CreateLenderInput.phone input;
     Lender.email := CreateLenderInput.email input;
     Lender.is_active := CreateLenderInput.is_active input;
     Lender.created_at := Generated.created_at generated;
     Lender.updated_at := Generated.updated_at generated |}.

Definition createLender (generated : Generated.t) (input : CreateLenderInput.t)
  : Handler (option Lender.t) :=
  try_rethrow
    (result <- insert_lender (lender_values generated input) ;;
     ret (hd_error result)).

(** *** [createMortgageRate] ([create_mortgage_rate.ts]) *)

Module CreateMortgageRateInput.
Record t : Type := mk {
  lender_id : Z;
  loan_type : LoanType;
  loan_term : LoanTerm;
  interest_rate : Q;
  apr : Q;
  points : Q;
  min_credit_score : Z;
  max_loan_amount : Q;
  min_down_payment_percent : Q;
  closing_costs : option Q;
  is_active : bool
}.
End CreateMortgageRateInput.

(** The row that [values({...})] gives, with the generated columns. *)
Definition rate_values (generated : Generated.t) (input : CreateMortgageRateInput.t)
  : MortgageRate.t :=
  {| MortgageRate.id := Generated.id generated;
     MortgageRate.lender_id := CreateMortgageRateInput.lender_id input;
     MortgageRate.loan_type := CreateMortgageRateInput.loan_type input;
     MortgageRate.loan_term := CreateMortgageRateInput.loan_term input;
     MortgageRate.interest_rate := toString (CreateMortgageRateInput.interest_rate input);
     MortgageRate.apr := toString (CreateMortgageRateInput.apr input);
     MortgageRate.points := toString (CreateMortgageRateInput.points input);
     MortgageRate.min_credit_score := CreateMortgageRateInput.min_credit_score input;
     MortgageRate.max_loan_amount := toString (CreateMortgageRateInput.max_loan_amount input);
     MortgageRate.min_down_payment_percent :=
       toString (CreateMortgageRateInput.min_down_payment_percent input);
     MortgageRate.closing_costs :=
       toString_or_null (CreateMortgageRateInput.closing_costs input);
     MortgageRate.is_active := CreateMortgageRateInput.is_active input;
     MortgageRate.created_at := Generated.created_at generated;
     MortgageRate.updated_at := Generated.updated_at generated |}.

(** [{...mortgageRate, interest_rate: parseFloat(...), ...}] *)
Definition created_rate_value (mortgageRate : MortgageRate.t) : MortgageRateValue.t :=
  {| MortgageRateValue.row := mortgageRate;
     MortgageRateValue.interest_rate := parseFloat (MortgageRate.interest_rate mortgageRate);
     MortgageRateValue.apr := parseFloat (MortgageRate.apr mortgageRate);
     MortgageRateValue.points := parseFloat (MortgageRate.points mortgageRate);
     MortgageRateValue.max_loan_amount := parseFloat (MortgageRate.max_loan_amount mortgageRate);
     MortgageRateValue.min_down_payment_percent :=
       parseFloat (MortgageRate.min_down_payment_percent mortgageRate);
     MortgageRateValue.closing_costs :=
       parse_nullable (MortgageRate.closing_costs mortgageRate) |}.

Definition createMortgageRate (generated : Generated.t) (input : CreateMortgageRateInput.t)
  : Handler MortgageRateValue.t :=
  try_rethrow
    (lender <- SQL.select_lenders (lender_id_eq (CreateMortgageRateInput.lender_id input)) ;;
     if (Z.of_nat (List.length lender) =? 0)%Z then
       throw ("Lender with ID " ++ show_int (CreateMortgageRateInput.lender_id input)
              ++ " not found")%string
     else
       result <- insert_rate (rate_values generated input) ;;
       match result with
       | mortgageRate :: _ => ret (created_rate_value mortgageRate)
       | [] => throw "TypeError: undefined is not an object"%string
       end).

(** *** Quote requests ([create_mortgage_quote_request.ts],
    [get_mortgage_quote_requests.ts]) *)

(** A row of [mortgageQuoteRequestsTable]. *)
Module QuoteRequest.
Record t : Type := mk {
  id : Z;
  loan_amount : numeric;
  property_value : numeric;
  down_payment : numeric;
  credit_score : Z;
  loan_type : LoanType;
  loan_term : LoanTerm;
  property_type : PropertyType;
  occupancy_type : OccupancyType;
  zip_code : string;
  debt_to_income_ratio : option numeric;
  created_at : timestamp
}.
End QuoteRequest.

(** The returned [MortgageQuoteRequest]: the row, its numeric columns
    parsed. *)
Module QuoteRequestValue.
Record t : Type := mk {
  row : QuoteRequest.t;
  loan_amount : number;
  property_value : number;
  down_payment : number;
  debt_to_income_ratio : option number
}.
End QuoteRequestValue.

(** The two handlers of quote requests touch one table only; their
    state is that table. *)
Definition RequestsHandler (A : Type) : Type :=
  list QuoteRequest.t -> Result A * list QuoteRequest.t.

(** [{...request, loan_amount: parseFloat(request.loan_amount), ...}] *)
Definition request_value (request : QuoteRequest.t) : QuoteRequestValue.t :=
  {| QuoteRequestValue.row := request;
     QuoteRequestValue.loan_amount := parseFloat (QuoteRequest.loan_amount request);
     QuoteRequestValue.property_value := parseFloat (QuoteRequest.property_value request);
     QuoteRequestValue.down_payment := parseFloat (QuoteRequest.down_payment request);
     QuoteRequestValue.debt_to_income_ratio :=
       parse_nullable (QuoteRequest.debt_to_income_ratio request) |}.

(** The row that [values({...})] gives, with the generated [id] and
    [created_at]. *)
Definition request_values (id : Z) (created_at : timestamp) (input : Input.t) : QuoteRequest.t :=
  {| QuoteRequest.id := id;
     QuoteRequest.loan_amount := toString (Input.loan_amount input);
     QuoteRequest.property_value := toString (Input.property_value input);
     QuoteRequest.down_payment := toString (Input.down_payment input);
     QuoteRequest.credit_score := Input.credit_score input;
     QuoteRequest.loan_type := Input.loan_type input;
     QuoteRequest.loan_term := Input.loan_term input;
     QuoteRequest.property_type := Input.property_type input;
     QuoteRequest.occupancy_type := Input.occupancy_type input;
     QuoteRequest.zip_code := Input.zip_code input;
     QuoteRequest.debt_to_income_ratio :=
       toString_or_null (Input.debt_to_income_ratio input);
     QuoteRequest.created_at := created_at |}.

(** [createMortgageQuoteRequest(input)]; [id] and [created_at] are the
    values the database generates for the row.  The [catch] throws the
    error again as it is. *)
Definition createMortgageQuoteRequest (id : Z) (created_at : timestamp) (input : Input.t)
  : RequestsHandler QuoteRequestValue.t :=
  fun table =>
    let result := [request_values id created_at input] in
    let table' := (table ++ result)%list in
    match result with
    | quoteRequest :: _ => (Ok (request_value quoteRequest), table')
    | [] => (Throw "TypeError: undefined is not an object"%string, table')
    end.

Fixpoint insert_desc (x : QuoteRequest.t) (l : list QuoteRequest.t) : list QuoteRequest.t :=
  match l with
  | [] => [x]
  | y :: l' =>
      if (QuoteRequest.created_at y <=? QuoteRequest.created_at x)%Z
      then x :: l
      else y :: insert_desc x l'
  end.

(** [orderBy(desc(mortgageQuoteRequestsTable.created_at))]: most recent
    first; rows of equal time stay in the order they had. *)
Definition orderBy_created_at_desc (l : list QuoteRequest.t) : list QuoteRequest.t :=
  fold_right insert_desc [] l.

Definition getMortgageQuoteRequests : RequestsHandler (list QuoteRequestValue.t) :=
  fun table => (Ok (map request_value (orderBy_created_at_desc table)), table).

(** ** Notions used by the further statements *)

(** Every rate row belongs to a lender row. *)
Definition rates_have_lenders (db : DB) : Prop :=
  forall rate, In rate (mortgageRatesTable db) ->
    exists lender, In lender (lendersTable db) /\
                   Lender.id lender = MortgageRate.lender_id rate.


(** Requests from the most recent to the oldest. *)
Definition newer_first (a b : QuoteRequestValue.t) : Prop :=
  (QuoteRequest.created_at (QuoteRequestValue.row b)
   <= QuoteRequest.created_at (QuoteRequestValue.row a))%Z.

(** ** Further rows of the test suite *)

(** 'inactiveLender' of the tests of [getMortgageRates]. *)
Definition inactiveLender : Lender.t :=
  {| Lender.id := 3;
     Lender.name := "Inactive Lender";
     Lender.logo_url := None;
     Lender.website_url := None;
     Lender.phone := None;
     Lender.email := None;
     Lender.is_active := false;
     Lender.created_at := 1000%Z;
     Lender.updated_at := 1000%Z |}.

(** An active rate of the inactive lender. *)
Definition rateOfInactiveLender : MortgageRate.t :=
  {| MortgageRate.id := 7;
     MortgageRate.lender_id := 3;
     MortgageRate.loan_type := conventional;
     MortgageRate.loan_term := term_30;
     MortgageRate.interest_rate := 6.500;
     MortgageRate.apr := 6.750;
     MortgageRate.points := 0;
     MortgageRate.min_credit_score := 700;
     MortgageRate.max_loan_amount := 500000;
     MortgageRate.min_down_payment_percent := 10;
     MortgageRate.closing_costs := None;
     MortgageRate.is_active := true;
     MortgageRate.created_at := 1000%Z;
     MortgageRate.updated_at := 1000%Z |}.

(** [testInput] of the tests of [createMortgageRate], for [testBank]. *)
Definition testRateInput : CreateMortgageRateInput.t :=
  {| CreateMortgageRateInput.lender_id := 1;
     CreateMortgageRateInput.loan_type := conventional;
     CreateMortgageRateInput.loan_term := term_30;
     CreateMortgageRateInput.interest_rate := 6.125;
     CreateMortgageRateInput.apr := 6.247;
     CreateMortgageRateInput.points := 0.75;
     CreateMortgageRateInput.min_credit_score := 620;
     CreateMortgageRateInput.max_loan_amount := 1234567.89;
     CreateMortgageRateInput.min_down_payment_percent := 5.25;
     CreateMortgageRateInput.closing_costs := Some 2750.50;
     CreateMortgageRateInput.is_active := true |}.

Definition testLenderInput : CreateLenderInput.t :=
  {| CreateLenderInput.name := "Test Lender Bank";
     CreateLenderInput.logo_url := Some "https://example.com/logo.png"%string;
     CreateLenderInput.website_url := Some "https://testlender.com"%string;
     CreateLenderInput.phone := Some "+1-555-123-4567"%string;
     CreateLenderInput.email := Some "contact@testlender.com"%string;
     CreateLenderInput.is_active := true |}.

Definition testGenerated : Generated.t :=
  {| Generated.id := 42; Generated.created_at := 5000%Z; Generated.updated_at := 5000%Z |}.

(** An update that only deactivates lender 1. *)
Definition deactivateLender : UpdateLenderInput.t :=
  {| UpdateLenderInput.id := 1;
     UpdateLenderInput.name := None;
     UpdateLenderInput.logo_url := None;
     UpdateLenderInput.website_url := None;
     UpdateLenderInput.phone := None;
     UpdateLenderInput.email := None;
     UpdateLenderInput.is_active := Some false |}.

(** An update of rate 1 with the given [lender_id] and [is_active]. *)
Definition rateUpdate (lender_id : option Z) (is_active : option bool)
  : UpdateMortgageRateInput.t :=
  {| UpdateMortgageRateInput.id := 1;
     UpdateMortgageRateInput.lender_id := lender_id;
     UpdateMortgageRateInput.loan_type := None;
     UpdateMortgageRateInput.loan_term := None;
     UpdateMortgageRateInput.interest_rate := None;
     UpdateMortgageRateInput.apr := None;
     UpdateMortgageRateInput.points := None;
     UpdateMortgageRateInput.min_credit_score := None;
     UpdateMortgageRateInput.max_loan_amount := None;
     UpdateMortgageRateInput.min_down_payment_percent := None;
     UpdateMortgageRateInput.closing_costs := None;
     UpdateMortgageRateInput.is_active := is_active |}.

(** * Properties *)

(** ** The call always returns, and reads only *)

Lemma getMortgageQuotes_eq (input : Input.t) (db : DB) :
  getMortgageQuotes input db =
  (Ok (map (to_quote input)
         (map select_columns
            (SQL.orderBy_asc (fun joined => MortgageRate.apr (fst joined))
               (candidates input db)))),
   db).
Proof. reflexivity. Qed.

(** ** Ordering *)

Section OrderByFacts.
Context {A : Type} (key : A -> numeric).

Lemma insert_asc_In (x y : A) (l : list A) :
  In y (SQL.insert_asc key x l) <-> y = x \/ In y l.
Proof.
  induction l as [|z l IH]; simpl.
  - intuition.
  - destruct (Qle_bool (key x) (key z)); simpl; rewrite ?IH; intuition.
Qed.

Lemma orderBy_asc_In (y : A) (l : list A) :
  In y (SQL.orderBy_asc key l) <-> In y l.
Proof.
  induction l as [|x l IH]; simpl.
  - reflexivity.
  - rewrite insert_asc_In, IH. intuition.
Qed.

Lemma insert_asc_sorted (x : A) (l : list A) :
  StronglySorted (key_le key) l -> StronglySorted (key_le key) (SQL.insert_asc key x l).
Proof.
  induction 1 as [|z l Hl IH Hz]; simpl.
  - constructor; constructor.
  - destruct (Qle_bool (key x) (key z)) eqn:E.
    + apply Qle_bool_iff in E.
      constructor; [constructor; assumption|].
      constructor; [exact E|].
      rewrite Forall_forall in Hz |- *. intros w Hw.
      unfold key_le in *. eapply Qle_trans; [exact E | apply Hz, Hw].
    + assert (Hzx : key z <= key x).
      { apply Qlt_le_weak, Qnot_le_lt. intro H.
        apply Qle_bool_iff in H. congruence. }
      constructor; [exact IH|].
      rewrite Forall_forall in Hz |- *. intros w Hw.
      apply insert_asc_In in Hw. destruct Hw as [-> | Hw]; auto.
Qed.

Lemma orderBy_asc_sorted (l : list A) :
  StronglySorted (key_le key) (SQL.orderBy_asc key l).
Proof.
  induction l as [|x l IH]; simpl.
  - constructor.
  - apply insert_asc_sorted, IH.
Qed.
End OrderByFacts.

Lemma StronglySorted_map {A B} (R : A -> A -> Prop) (S : B -> B -> Prop) (f : A -> B) (l : list A) :
  (forall a b, R a b -> S (f a) (f b)) ->
  StronglySorted R l -> StronglySorted S (map f l).
Proof.
  intros HRS. induction 1 as [|x l Hl IH Hx]; simpl; constructor; auto.
  rewrite Forall_forall in Hx |- *. intros y Hy.
  apply in_map_iff in Hy. destruct Hy as [a [<- Ha]]. auto.
Qed.

(** ** Join and filter *)

Lemma innerJoin_In {A B} (left : list A) (right : list B) (on : A -> B -> bool) a b :
  In (a, b) (SQL.innerJoin left right on) <-> In a left /\ In b right /\ on a b = true.
Proof.
  unfold SQL.innerJoin. rewrite in_flat_map. split.
  - intros [a' [Ha' H]]. apply in_map_iff in H.
    destruct H as [b' [Heq Hb']]. inversion Heq; subst.
    apply filter_In in Hb'. tauto.
  - intros [Ha [Hb Hon]]. exists a. split; [exact Ha|].
    apply in_map_iff. exists b. split; [reflexivity|].
    apply filter_In. tauto.
Qed.

Lemma LoanType_eqb_eq a b : LoanType_eqb a b = true <-> a = b.
Proof. destruct a, b; simpl; split; congruence. Qed.

Lemma LoanTerm_eqb_eq a b : LoanTerm_eqb a b = true <-> a = b.
Proof. destruct a, b; simpl; split; congruence. Qed.

Lemma div_nonzero (a b : Q) : ~ b == 0 -> (Fin a / Fin b)%js = Fin (a / b).
Proof.
  intros Hb. simpl. destruct (Qeq_bool b 0) eqn:E; [|reflexivity].
  apply Qeq_bool_iff in E. contradiction.
Qed.



(** What passing the [where] clause means for a joined row. *)
Lemma matches_criteria_spec (input : Input.t) rate lender :
  matches_criteria input (rate, lender) = true <->
  MortgageRate.loan_type rate = Input.loan_type input /\
  MortgageRate.loan_term rate = Input.loan_term input /\
  (MortgageRate.min_credit_score rate <= Input.credit_score input)%Z /\
  Input.loan_amount input <= MortgageRate.max_loan_amount rate /\
  SQL.le (Fin (MortgageRate.min_down_payment_percent rate)) (downPaymentPercent input) = true /\
  MortgageRate.is_active rate = true /\
  Lender.is_active lender = true.
Proof.
  unfold matches_criteria. rewrite !andb_true_iff.
  rewrite LoanType_eqb_eq, LoanTerm_eqb_eq, Z.leb_le, !Bool.eqb_true_iff.
  unfold SQL.gte, SQL.lte. simpl SQL.le at 1. rewrite Qle_bool_iff.
  tauto.
Qed.

Lemma candidates_In (input : Input.t) (db : DB) rate lender :
  In (rate, lender) (candidates input db) <->
  In rate (mortgageRatesTable db) /\ In lender (lendersTable db) /\
  MortgageRate.lender_id rate = Lender.id lender /\
  matches_criteria input (rate, lender) = true.
Proof.
  unfold candidates. rewrite filter_In, innerJoin_In, Z.eqb_eq. tauto.
Qed.

(** ** Eligibility *)


(** ** Ranking *)

Lemma apr_le_of_key_le (input : Input.t) (a b : MortgageRate.t * Lender.t) :
  key_le (fun joined => MortgageRate.apr (fst joined)) a b ->
  apr_le (to_quote input (select_columns a)) (to_quote input (select_columns b)).
Proof.
  destruct a as [ra la], b as [rb lb]. unfold key_le, apr_le. simpl.
  intros H. apply Qle_bool_iff. exact H.
Qed.

(** C2. The quotes are in non-decreasing order of [apr]; and when
    exactly two records are eligible, one of apr 7.5 and one of apr
    6.75, in either catalog order, the quote of apr 6.75 comes first
    and the quote of apr 7.5 second. *)
Theorem quotes_sorted_by_apr (input : Input.t) (db : DB) :
  exists quotes,
    getMortgageQuotes input db = (Ok quotes, db) /\
    StronglySorted apr_le quotes /\
    forall r1 l1 r2 l2,
      MortgageRate.apr r1 == 7.5 ->
      MortgageRate.apr r2 == 6.75 ->
      candidates input db = [(r1, l1); (r2, l2)] \/
      candidates input db = [(r2, l2); (r1, l1)] ->
      quotes = [quote_of input r2 l2; quote_of input r1 l1].
Proof.
  eexists. split; [apply getMortgageQuotes_eq|]. split.
  - rewrite map_map.
    eapply StronglySorted_map; [apply apr_le_of_key_le|].
    apply orderBy_asc_sorted.
  - intros r1 l1 r2 l2 H1 H2 Hc.
    assert (E12 : Qle_bool (MortgageRate.apr r1) (MortgageRate.apr r2) = false).
    { destruct (Qle_bool _ _) eqn:E; [|reflexivity].
      apply Qle_bool_iff in E. rewrite H1, H2 in E.
      exfalso. revert E. apply Qlt_not_le. reflexivity. }
    assert (E21 : Qle_bool (MortgageRate.apr r2) (MortgageRate.apr r1) = true).
    { apply Qle_bool_iff. rewrite H1, H2. discriminate. }
    destruct Hc as [-> | ->]; simpl; [rewrite E12 | rewrite E21]; reflexivity.
Qed.

(** ** Determinism and absence of writes *)


(** ** Arithmetic on finite numbers *)

Lemma mul_fin (a b : Q) : (Fin a * Fin b)%js = Fin (a * b).
Proof. reflexivity. Qed.


Lemma sub_fin (a b : Q) : (Fin a - Fin b)%js = Fin (a - b).
Proof. reflexivity. Qed.

Lemma Math_round_fin (a : Q) : Math_round (Fin a) = Fin (inject_Z (Qfloor (a + (1 # 2)))).
Proof. reflexivity. Qed.

Lemma div_100 (a : Q) : (Fin a / Fin 100)%js = Fin (a / 100).
Proof. apply div_nonzero. discriminate. Qed.

Lemma div_12 (a : Q) : (Fin a / Fin 12)%js = Fin (a / 12).
Proof. apply div_nonzero. discriminate. Qed.


Lemma strict_eq_fin_zero (a : Q) : (Fin a === Fin 0)%js = Qeq_bool a 0.
Proof. reflexivity. Qed.


Lemma monthlyRate_zero_iff (R : Q) : R / 100 / 12 == 0 <-> R == 0.
Proof.
  split; intros H.
  - assert (E : R == R / 100 / 12 * 1200) by (field).
    rewrite E, H. reflexivity.
  - rewrite H. reflexivity.
Qed.


(** The two branches of [calculateMonthlyPayment] on finite arguments. *)
Lemma calculateMonthlyPayment_zero_rate (P R : Q) (T : Z) :
  R == 0 -> (0 < T)%Z ->
  calculateMonthlyPayment (Fin P) (Fin R) T = Fin (P / inject_Z (T * 12)).
Proof.
  intros HR HT. unfold calculateMonthlyPayment.
  rewrite div_100, div_12, strict_eq_fin_zero.
  assert (E : Qeq_bool (R / 100 / 12) 0 = true)
    by (apply Qeq_bool_iff, monthlyRate_zero_iff, HR).
  rewrite E. unfold of_Z. apply div_nonzero.
  intros H. apply (inject_Z_injective (T * 12) 0) in H. lia.
Qed.




(** ** Quotes and the records they are made from *)

Lemma quotes_In (input : Input.t) (db : DB) (q : Quote.t) :
  In q (map (to_quote input)
          (map select_columns
             (SQL.orderBy_asc (fun joined => MortgageRate.apr (fst joined))
                (candidates input db)))) <->
  exists rate lender,
    In (rate, lender) (candidates input db) /\ q = quote_of input rate lender.
Proof.
  rewrite map_map, in_map_iff. split.
  - intros [[rate lender] [Hq Hin]]. apply orderBy_asc_In in Hin.
    exists rate, lender. split; [exact Hin | symmetry; exact Hq].
  - intros [rate [lender [Hin Hq]]]. exists (rate, lender).
    split; [symmetry; exact Hq | apply orderBy_asc_In, Hin].
Qed.

Lemma quote_of_candidate (input : Input.t) (db : DB) quotes rate lender :
  getMortgageQuotes input db = (Ok quotes, db) ->
  In (rate, lender) (candidates input db) ->
  In (quote_of input rate lender) quotes.
Proof.
  rewrite getMortgageQuotes_eq. intros Heq Hc. injection Heq as <-.
  apply quotes_In. eauto.
Qed.

(** The candidates on the catalogs of the test suite. *)
Lemma six_percent_candidates :
  candidates testQuoteRequest sixPercentCatalog = [(testRate 1 6.000 6.200, testBank)].
Proof. reflexivity. Qed.

Lemma zero_rate_candidates :
  candidates testQuoteRequest zeroRateCatalog = [(testRate 1 0 0, testBank)].
Proof. reflexivity. Qed.

Lemma two_rates_candidates :
  candidates testQuoteRequest twoRatesCatalog =
  [(testRate 1 7.000 7.500, testBank); (testRate 2 6.500 6.750, testBank)].
Proof. reflexivity. Qed.


(** ** Monthly payment *)




Lemma parseInt_pos (t : LoanTerm) : (0 < parseInt t)%Z.
Proof. destruct t; reflexivity. Qed.


(** ** Zero interest rate *)

Lemma calculateTotalInterest_zero_rate (P R : Q) (T : Z) :
  R == 0 -> (0 < T)%Z ->
  exists t, calculateTotalInterest P R T = Fin t /\ t == 0.
Proof.
  intros HR HT. unfold calculateTotalInterest.
  rewrite (calculateMonthlyPayment_zero_rate P R T HR HT).
  unfold of_Z. rewrite !mul_fin, sub_fin, mul_fin, Math_round_fin, div_100.
  eexists. split; [reflexivity|].
  assert (HT0 : ~ inject_Z T == 0).
  { intros H. apply (inject_Z_injective T 0) in H. lia. }
  assert (E : (P / inject_Z (T * 12) * inject_Z T * 12 - P) * 100 + (1 # 2) == 1 # 2).
  { rewrite inject_Z_mult. change (inject_Z 12) with 12. field. exact HT0. }
  rewrite E. reflexivity.
Qed.

(** The monthly payment of the zero-rate branch is not rounded: on the
    catalog of the zero-rate test the one quote has rate 0 and a
    monthly payment of exactly 10000/9 = 1111.11..., which is not
    400000 / (30 * 12) rounded to 2 decimal places (1111.11). *)
Lemma zero_rate_payment_is_not_rounded :
  exists q m,
    getMortgageQuotes testQuoteRequest zeroRateCatalog = (Ok [q], zeroRateCatalog) /\
    Quote.interest_rate q = Fin 0 /\
    Quote.monthly_payment q = Fin m /\
    m == 10000 # 9 /\
    ~ m == round_half_away_2dp (400000 / inject_Z (30 * 12)).
Proof.
  exists (quote_of testQuoteRequest (testRate 1 0 0) testBank).
  exists (400000 / inject_Z (30 * 12)).
  split; [rewrite getMortgageQuotes_eq, zero_rate_candidates; reflexivity|].
  split; [reflexivity|]. split; [reflexivity|].
  split; [reflexivity|]. vm_compute. discriminate.
Qed.

(** Rounding that payment would not go with a total interest of 0: the
    total interest formula on 1111.11 gives -0.40. *)
Remark rounded_zero_rate_payment_total_interest :
  round_half_away_2dp (400000 / inject_Z (30 * 12)) == 1111.11 /\
  (Math_round ((Fin 1111.11 * of_Z 30 * Fin 12 - Fin 400000) * Fin 100) / Fin 100)%js
  = Fin ((-40) / 100).
Proof. split; reflexivity. Qed.

(** C4 (amended). A quote made from a record of interest rate 0 has a
    monthly payment of exactly [loan_amount / (term_years * 12)], not
    rounded, and a total interest of 0. *)
Theorem zero_rate_quote (input : Input.t) (db : DB) :
  exists quotes,
    getMortgageQuotes input db = (Ok quotes, db) /\
    forall q R,
      In q quotes -> Quote.interest_rate q = Fin R -> R == 0 ->
      exists m t,
        Quote.monthly_payment q = Fin m /\
        m == Input.loan_amount input / inject_Z (parseInt (Input.loan_term input) * 12) /\
        Quote.total_interest q = Fin t /\
        t == 0.
Proof.
  eexists. split; [apply getMortgageQuotes_eq|].
  intros q R Hq HqR HR. apply quotes_In in Hq.
  destruct Hq as (rate & lender & _ & ->).
  unfold quote_of, to_quote in *. simpl in HqR |- *.
  unfold parseFloat in *. rewrite HqR.
  pose proof (parseInt_pos (Input.loan_term input)) as HT.
  destruct (calculateTotalInterest_zero_rate (Input.loan_amount input) R _ HR HT)
    as [t [Ht Ht0]].
  eexists. exists t. split; [apply calculateMonthlyPayment_zero_rate; assumption|].
  split; [reflexivity|]. split; assumption.
Qed.

(** ** Derived ratios *)



(** [Math.round] sends a tie up, so below zero it is not rounding half
    away from zero: -0.125 goes to -0.12, not to -0.13. *)
Remark Math_round_negative_tie :
  (Math_round (Fin (-0.125) * Fin 100) / Fin 100)%js = Fin ((-12) / 100) /\
  round_half_away_2dp (-0.125) == (-13) / 100.
Proof. split; reflexivity. Qed.


(** ** Total interest *)


(** ** A property value of zero *)






(** ** Updates: the error path *)

Lemma prefix_app (s t : string) : String.prefix s (s ++ t) = true.
Proof.
  induction s as [|a s IH]; simpl; [destruct t; reflexivity|].
  destruct (ascii_dec a a); [exact IH | congruence].
Qed.

Lemma includes_prefix (sub s : string) :
  String.prefix sub s = true -> includes sub s = true.
Proof. destruct s; simpl; intros ->; reflexivity. Qed.

Lemma includes_app (sub pre post : string) :
  includes sub (pre ++ sub ++ post) = true.
Proof.
  induction pre as [|a pre IH]; simpl.
  - apply includes_prefix, prefix_app.
  - rewrite IH. apply orb_true_r.
Qed.

Lemma string_app_assoc (s t u : string) : ((s ++ t) ++ u = s ++ t ++ u)%string.
Proof. induction s as [|a s IH]; simpl; [reflexivity | rewrite IH; reflexivity]. Qed.

(** A message of the form [`${pre}${n} not found`]. *)
Lemma not_found_message (pre n : string) :
  includes "not found" (pre ++ n ++ " not found") = true.
Proof.
  replace (pre ++ n ++ " not found")%string
    with ((pre ++ n ++ " ") ++ "not found" ++ "")%string.
  - apply includes_app.
  - rewrite !string_app_assoc. reflexivity.
Qed.

Lemma filter_none {A} (p : A -> bool) (l : list A) :
  (forall x, In x l -> p x = false) -> filter p l = [].
Proof.
  induction l as [|x l IH]; simpl; intros H; [reflexivity|].
  rewrite (H x) by auto. apply IH. auto.
Qed.

(** C9. When no lender has the id of the input, [updateLender] throws
    an error whose message contains "not found" and the database is
    left as it was; and so does [updateMortgageRate] when no mortgage
    rate has the id of its input. *)
Theorem update_of_missing_record_throws_not_found :
  (forall now input db,
     (forall row, In row (lendersTable db) -> Lender.id row <> UpdateLenderInput.id input) ->
     exists message,
       updateLender now input db = (Throw message, db) /\
       includes "not found" message = true) /\
  (forall now input db,
     (forall row, In row (mortgageRatesTable db) ->
                  MortgageRate.id row <> UpdateMortgageRateInput.id input) ->
     exists message,
       updateMortgageRate now input db = (Throw message, db) /\
       includes "not found" message = true).
Proof.
  split; intros now input db Hnone.
  - eexists. split.
    + unfold updateLender, try_rethrow, bind, SQL.select_lenders.
      rewrite filter_none; [reflexivity|].
      intros row Hrow. apply Z.eqb_neq, Hnone, Hrow.
    + apply not_found_message.
  - eexists. split.
    + unfold updateMortgageRate, try_rethrow, bind, SQL.select_rates.
      rewrite filter_none; [reflexivity|].
      intros row Hrow. apply Z.eqb_neq, Hnone, Hrow.
    + apply not_found_message.
Qed.

(** ** Updates: the frame *)

Lemma keeps_or_takes_assign {A} (given : option A) (old : A) :
  keeps_or_takes given old (assign given old).
Proof. destruct given; reflexivity. Qed.

Lemma keeps_or_takes_toString (given : option Q) (old : numeric) :
  keeps_or_takes given old (assign (option_map toString given) old).
Proof. destruct given; reflexivity. Qed.

Lemma keeps_or_takes_toString_nullable (given : option (option Q)) (old : option numeric) :
  keeps_or_takes given old (assign (option_map (option_map toString) given) old).
Proof. destruct given as [[|]|]; reflexivity. Qed.

Lemma set_lender_updated now input old :
  lender_updated now input old (set_lender (lender_updateData now input) old).
Proof.
  unfold lender_updated, set_lender, lender_updateData; simpl.
  repeat split; apply keeps_or_takes_assign.
Qed.

Lemma set_rate_updated now input old :
  rate_updated now input old (set_rate (rate_updateData now input) old).
Proof.
  unfold rate_updated, set_rate, rate_updateData; simpl.
  repeat split;
    first [ apply keeps_or_takes_assign
          | apply keeps_or_takes_toString
          | apply keeps_or_takes_toString_nullable ].
Qed.

(** A table after [update ... set f where p], row by row. *)
Lemma Forall2_update {A} (p : A -> bool) (f : A -> A) (R : A -> A -> Prop) (l : list A) :
  (forall x, R x (if p x then f x else x)) ->
  Forall2 R l (map (fun row => if p row then f row else row) l).
Proof. intros H. induction l as [|x l IH]; simpl; constructor; auto. Qed.

Lemma update_frame {A} (p : A -> bool) (f : A -> A) (U : A -> A -> Prop) (l : list A) :
  (forall x, U x (f x)) ->
  Forall2 (fun old new => if p old then U old new else new = old) l
    (map (fun row => if p row then f row else row) l).
Proof.
  intros H. apply Forall2_update. intros x. destruct (p x); [apply H | reflexivity].
Qed.

Lemma update_hits {A} (p : A -> bool) (f : A -> A) (l : list A) (x : A) :
  In x l -> p x = true ->
  exists y rest,
    filter p l = y :: rest /\ p y = true /\
    In (f y) (map (fun row => if p row then f row else row) l).
Proof.
  intros Hin Hp. destruct (filter p l) as [|y rest] eqn:E.
  - assert (H : In x (filter p l)) by (apply filter_In; auto).
    rewrite E in H. destruct H.
  - assert (Hy : In y (filter p l)) by (rewrite E; left; reflexivity).
    apply filter_In in Hy. destruct Hy as [Hyin Hyp].
    exists y, rest. repeat split; [exact Hyp|].
    apply in_map_iff. exists y. rewrite Hyp. auto.
Qed.

(** The lender check leaves the database as it is, and fails exactly
    for an id that no lender has. *)
Lemma verify_lender_spec (lender_id : option Z) (db : DB) :
  verify_lender lender_id db = (Ok tt, db) \/
  exists message lid,
    verify_lender lender_id db = (Throw message, db) /\
    lender_id = Some lid /\
    forall lender, In lender (lendersTable db) -> Lender.id lender <> lid.
Proof.
  destruct lender_id as [lid|]; [|left; reflexivity].
  unfold verify_lender, bind, SQL.select_lenders.
  destruct (filter (lender_id_eq lid) (lendersTable db)) as [|l ls] eqn:E.
  - right. eexists. exists lid. split; [reflexivity|]. split; [reflexivity|].
    intros lender Hl Hlid.
    assert (H : In lender (filter (lender_id_eq lid) (lendersTable db)))
      by (apply filter_In; split; [exact Hl | apply Z.eqb_eq, Hlid]).
    rewrite E in H. destruct H.
  - left. reflexivity.
Qed.

(** C10. When a lender has the id of the input, [updateLender] returns
    and leaves every other lender row and the whole rate table as they
    were; on each row of that id, [updated_at] becomes the timestamp of
    the call, every property present in the input takes its value, and
    every omitted one, [id] and [created_at] keep their prior value.
    [updateMortgageRate] does the same on the rate rows of the id of
    its input; its only other outcome is the error for a [lender_id]
    that no lender has, which changes nothing. *)
Theorem update_changes_only_given_fields :
  (forall now input db,
     (exists row, In row (lendersTable db) /\ Lender.id row = UpdateLenderInput.id input) ->
     exists new db',
       updateLender now input db = (Ok (Some new), db') /\
       In new (lendersTable db') /\
       Lender.id new = UpdateLenderInput.id input /\
       mortgageRatesTable db' = mortgageRatesTable db /\
       Forall2
         (fun old new =>
            if (Lender.id old =? UpdateLenderInput.id input)%Z
            then lender_updated now input old new
            else new = old)
         (lendersTable db) (lendersTable db')) /\
  (forall now input db,
     (exists row, In row (mortgageRatesTable db) /\
                  MortgageRate.id row = UpdateMortgageRateInput.id input) ->
     match updateMortgageRate now input db with
     | (Ok returned, db') =>
         In (MortgageRateValue.row returned) (mortgageRatesTable db') /\
         MortgageRate.id (MortgageRateValue.row returned) = UpdateMortgageRateInput.id input /\
         lendersTable db' = lendersTable db /\
         Forall2
           (fun old new =>
              if (MortgageRate.id old =? UpdateMortgageRateInput.id input)%Z
              then rate_updated now input old new
              else new = old)
           (mortgageRatesTable db) (mortgageRatesTable db')
     | (Throw message, db') =>
         db' = db /\
         exists lender_id,
           UpdateMortgageRateInput.lender_id input = Some lender_id /\
           forall lender, In lender (lendersTable db) -> Lender.id lender <> lender_id
     end).
Proof.
  split; intros now input db [row [Hin Hid]].
  - apply Z.eqb_eq in Hid.
    destruct (update_hits (lender_id_eq (UpdateLenderInput.id input))
                (set_lender (lender_updateData now input)) _ _ Hin Hid)
      as (y & rest & Hf & Hy & Hynew).
    eexists. eexists. split; [|split; [|split; [|split]]].
    + unfold updateLender, try_rethrow, bind, SQL.select_lenders, SQL.update_lenders.
      rewrite Hf. simpl. rewrite Hf. reflexivity.
    + exact Hynew.
    + simpl. apply Z.eqb_eq, Hy.
    + reflexivity.
    + apply (update_frame (lender_id_eq (UpdateLenderInput.id input))).
      apply set_lender_updated.
  - apply Z.eqb_eq in Hid.
    destruct (update_hits (rate_id_eq (UpdateMortgageRateInput.id input))
                (set_rate (rate_updateData now input)) _ _ Hin Hid)
      as (y & rest & Hf & Hy & Hynew).
    unfold updateMortgageRate, try_rethrow, bind, SQL.select_rates, SQL.update_rates.
    rewrite Hf. cbn [List.length Z.of_nat Z.eqb].
    destruct (verify_lender_spec (UpdateMortgageRateInput.lender_id input) db)
      as [-> | (message & lid & -> & Hlid & Hnone)].
    + rewrite Hf. simpl. split; [exact Hynew|].
      split; [apply Z.eqb_eq, Hy|]. split; [reflexivity|].
      apply (update_frame (rate_id_eq (UpdateMortgageRateInput.id input))).
      apply set_rate_updated.
    + split; [reflexivity|]. exists lid. split; assumption.
Qed.

(** * The statements at the catalogs of the test suite *)


Lemma quotes_sorted_by_apr_witness :
  exists quotes,
    getMortgageQuotes testQuoteRequest twoRatesCatalog = (Ok quotes, twoRatesCatalog) /\
    StronglySorted apr_le quotes /\
    map Quote.apr quotes = [Fin 6.750; Fin 7.500].
Proof.
  destruct (quotes_sorted_by_apr testQuoteRequest twoRatesCatalog)
    as [quotes [Heq [Hs Hc]]].
  exists quotes. split; [exact Heq|]. split; [exact Hs|].
  rewrite (Hc (testRate 1 7.000 7.500) testBank (testRate 2 6.500 6.750) testBank);
    [reflexivity | reflexivity | reflexivity | left; exact two_rates_candidates].
Defined.


Lemma zero_rate_quote_witness :
  exists quotes m t,
    getMortgageQuotes testQuoteRequest zeroRateCatalog = (Ok quotes, zeroRateCatalog) /\
    In (quote_of testQuoteRequest (testRate 1 0 0) testBank) quotes /\
    Quote.monthly_payment (quote_of testQuoteRequest (testRate 1 0 0) testBank) = Fin m /\
    m == 400000 / inject_Z (30 * 12) /\
    Quote.total_interest (quote_of testQuoteRequest (testRate 1 0 0) testBank) = Fin t /\
    t == 0.
Proof.
  destruct (zero_rate_quote testQuoteRequest zeroRateCatalog) as [quotes [Heq H]].
  pose proof (quote_of_candidate _ _ _ (testRate 1 0 0) testBank Heq
                (or_introl eq_refl)) as Hin.
  destruct (H _ 0 Hin eq_refl) as (m & t & Hm & Hm' & Ht & Ht'); [reflexivity|].
  exists quotes, m, t. split; [exact Heq|]. split; [exact Hin|].
  repeat (split; [assumption|]). assumption.
Defined.




Lemma update_of_missing_record_throws_not_found_witness :
  exists message,
    updateLender 2000%Z nonExistentLenderUpdate (mkDB [testBank] [])
      = (Throw message, mkDB [testBank] []) /\
    includes "not found" message = true.
Proof.
  apply (proj1 update_of_missing_record_throws_not_found).
  intros row [<- | []]. discriminate.
Defined.

Lemma update_changes_only_given_fields_witness :
  exists new db',
    updateLender 2000%Z partialLenderUpdate (mkDB [testBank] []) = (Ok (Some new), db') /\
    Forall2
      (fun old new =>
         if (Lender.id old =? 1)%Z
         then lender_updated 2000%Z partialLenderUpdate old new
         else new = old)
      [testBank] (lendersTable db').
Proof.
  destruct (proj1 update_changes_only_given_fields 2000%Z partialLenderUpdate
              (mkDB [testBank] []))
    as (new & db' & Heq & _ & _ & _ & Hf).
  - exists testBank. split; [left; reflexivity | reflexivity].
  - exists new, db'. split; [exact Heq | exact Hf].
Defined.

(** * Further properties of the quote engine *)















(** Two profiles that agree on the fields the engine reads. *)
Lemma downPaymentPercent_ext (i1 i2 : Input.t) :
  Input.down_payment i1 = Input.down_payment i2 ->
  Input.property_value i1 = Input.property_value i2 ->
  downPaymentPercent i1 = downPaymentPercent i2.
Proof. unfold downPaymentPercent. intros -> ->. reflexivity. Qed.

Lemma to_quote_ext (i1 i2 : Input.t) (result : QuoteRow.t) :
  Input.loan_amount i1 = Input.loan_amount i2 ->
  Input.property_value i1 = Input.property_value i2 ->
  Input.down_payment i1 = Input.down_payment i2 ->
  Input.loan_term i1 = Input.loan_term i2 ->
  to_quote i1 result = to_quote i2 result.
Proof.
  intros Hla Hpv Hdp Hterm.
  unfold to_quote, downPaymentPercent, loanToValueRatio.
  rewrite Hla, Hpv, Hdp, Hterm. reflexivity.
Qed.

Lemma matches_criteria_ext (i1 i2 : Input.t) joined :
  Input.loan_amount i1 = Input.loan_amount i2 ->
  Input.property_value i1 = Input.property_value i2 ->
  Input.down_payment i1 = Input.down_payment i2 ->
  Input.credit_score i1 = Input.credit_score i2 ->
  Input.loan_type i1 = Input.loan_type i2 ->
  Input.loan_term i1 = Input.loan_term i2 ->
  matches_criteria i1 joined = matches_criteria i2 joined.
Proof.
  intros Hla Hpv Hdp Hcs Hty Hterm. destruct joined as [rate lender].
  unfold matches_criteria. rewrite (downPaymentPercent_ext i1 i2 Hdp Hpv).
  rewrite Hla, Hcs, Hty, Hterm. reflexivity.
Qed.

(** X5. The property type, the occupancy type, the ZIP code and the
    debt-to-income ratio of the profile play no part: two profiles that
    agree on the loan amount, property value, down payment, credit
    score, loan type and loan term get the same result. *)
Theorem quotes_ignore_property_occupancy_zip_dti (i1 i2 : Input.t) (db : DB) :
  Input.loan_amount i1 = Input.loan_amount i2 ->
  Input.property_value i1 = Input.property_value i2 ->
  Input.down_payment i1 = Input.down_payment i2 ->
  Input.credit_score i1 = Input.credit_score i2 ->
  Input.loan_type i1 = Input.loan_type i2 ->
  Input.loan_term i1 = Input.loan_term i2 ->
  getMortgageQuotes i1 db = getMortgageQuotes i2 db.
Proof.
  intros Hla Hpv Hdp Hcs Hty Hterm. rewrite !getMortgageQuotes_eq.
  unfold candidates.
  rewrite (filter_ext _ _ (fun joined =>
             matches_criteria_ext i1 i2 joined Hla Hpv Hdp Hcs Hty Hterm)).
  f_equal. f_equal. apply map_ext. intros result.
  apply to_quote_ext; assumption.
Qed.

Lemma quotes_ignore_property_occupancy_zip_dti_witness :
  getMortgageQuotes testQuoteRequest twoRatesCatalog =
  getMortgageQuotes
    {| Input.loan_amount := 400000;
       Input.property_value := 500000;
       Input.down_payment := 100000;
       Input.credit_score := 750;
       Input.loan_type := conventional;
       Input.loan_term := term_30;
       Input.property_type := condo;
       Input.occupancy_type := investment;
       Input.zip_code := "10001";
       Input.debt_to_income_ratio := None |}
    twoRatesCatalog.
Proof.
  apply quotes_ignore_property_occupancy_zip_dti; reflexivity.
Defined.

(** X6. A better credit score never loses a quote: when two profiles
    differ only by the credit score (and by the fields the engine does
    not read), every quote of the lower score is also a quote of the
    higher one. *)
Theorem higher_credit_score_keeps_quotes (i1 i2 : Input.t) (db : DB) :
  Input.loan_amount i1 = Input.loan_amount i2 ->
  Input.property_value i1 = Input.property_value i2 ->
  Input.down_payment i1 = Input.down_payment i2 ->
  Input.loan_type i1 = Input.loan_type i2 ->
  Input.loan_term i1 = Input.loan_term i2 ->
  (Input.credit_score i1 <= Input.credit_score i2)%Z ->
  exists quotes1 quotes2,
    getMortgageQuotes i1 db = (Ok quotes1, db) /\
    getMortgageQuotes i2 db = (Ok quotes2, db) /\
    forall q, In q quotes1 -> In q quotes2.
Proof.
  intros Hla Hpv Hdp Hty Hterm Hcs.
  eexists. eexists. split; [apply getMortgageQuotes_eq|].
  split; [apply getMortgageQuotes_eq|].
  intros q Hq. apply quotes_In in Hq. apply quotes_In.
  destruct Hq as (rate & lender & Hc & ->). exists rate, lender. split.
  - apply candidates_In in Hc. apply candidates_In.
    destruct Hc as (Hr & Hl & Hid & Hm). repeat (split; [assumption|]).
    apply matches_criteria_spec in Hm. apply matches_criteria_spec.
    destruct Hm as (H1 & H2 & H3 & H4 & H5 & H6 & H7).
    rewrite <- Hty, <- Hterm, <- Hla, <- (downPaymentPercent_ext i1 i2 Hdp Hpv).
    repeat (split; [first [assumption | lia]|]). assumption.
  - unfold quote_of. apply to_quote_ext; assumption.
Qed.

Lemma higher_credit_score_keeps_quotes_witness :
  exists quotes1 quotes2,
    getMortgageQuotes testQuoteRequest twoRatesCatalog = (Ok quotes1, twoRatesCatalog) /\
    getMortgageQuotes
      {| Input.loan_amount := 400000;
         Input.property_value := 500000;
         Input.down_payment := 100000;
         Input.credit_score := 800;
         Input.loan_type := conventional;
         Input.loan_term := term_30;
         Input.property_type := single_family;
         Input.occupancy_type := primary;
         Input.zip_code := "90210";
         Input.debt_to_income_ratio := Some 35.5 |}
      twoRatesCatalog = (Ok quotes2, twoRatesCatalog) /\
    forall q, In q quotes1 -> In q quotes2.
Proof.
  apply higher_credit_score_keeps_quotes; try reflexivity. discriminate.
Defined.

(** * Properties of the listing, update and create handlers *)

(** ** What each handler returns *)

Lemma getLenders_eq (db : DB) :
  getLenders db = (Ok (filter (fun row => Bool.eqb (Lender.is_active row) true)
                         (lendersTable db)), db).
Proof. reflexivity. Qed.

Lemma getMortgageRates_eq (db : DB) :
  getMortgageRates db =
  (Ok (map flatten_rate
         (filter (fun joined => Bool.eqb (MortgageRate.is_active (fst joined)) true)
            (SQL.innerJoin (mortgageRatesTable db) (lendersTable db)
               (fun rate lender => (MortgageRate.lender_id rate =? Lender.id lender)%Z)))),
   db).
Proof. reflexivity. Qed.

Lemma updateLender_eq now input db :
  updateLender now input db =
  match filter (lender_id_eq (UpdateLenderInput.id input)) (lendersTable db) with
  | [] =>
      (Throw ("Lender with id " ++ show_int (UpdateLenderInput.id input) ++ " not found")%string,
       db)
  | y :: _ =>
      (Ok (Some (set_lender (lender_updateData now input) y)),
       mkDB (map (fun row => if lender_id_eq (UpdateLenderInput.id input) row
                             then set_lender (lender_updateData now input) row
                             else row) (lendersTable db))
            (mortgageRatesTable db))
  end.
Proof.
  unfold updateLender, try_rethrow, bind, SQL.select_lenders, SQL.update_lenders.
  destruct (filter (lender_id_eq (UpdateLenderInput.id input)) (lendersTable db))
    as [|y rest] eqn:Hf.
  - reflexivity.
  - simpl. rewrite Hf. reflexivity.
Qed.

Lemma verify_lender_eq (lender_id : option Z) (db : DB) :
  verify_lender lender_id db =
  match lender_id with
  | Some lid =>
      match filter (lender_id_eq lid) (lendersTable db) with
      | [] => (Throw ("Lender with ID " ++ show_int lid ++ " not found")%string, db)
      | _ :: _ => (Ok tt, db)
      end
  | None => (Ok tt, db)
  end.
Proof.
  destruct lender_id as [lid|]; [|reflexivity].
  unfold verify_lender, bind, SQL.select_lenders.
  destruct (filter (lender_id_eq lid) (lendersTable db)); reflexivity.
Qed.

Lemma updateMortgageRate_eq now input db :
  updateMortgageRate now input db =
  match filter (rate_id_eq (UpdateMortgageRateInput.id input)) (mortgageRatesTable db) with
  | [] =>
      (Throw ("Mortgage rate with ID " ++ show_int (UpdateMortgageRateInput.id input)
              ++ " not found")%string, db)
  | y :: _ =>
      match verify_lender (UpdateMortgageRateInput.lender_id input) db with
      | (Ok _, _) =>
          (Ok (to_MortgageRate (set_rate (rate_updateData now input) y)),
           mkDB (lendersTable db)
                (map (fun row => if rate_id_eq (UpdateMortgageRateInput.id input) row
                                 then set_rate (rate_updateData now input) row
                                 else row) (mortgageRatesTable db)))
      | (Throw e, _) => (Throw e, db)
      end
  end.
Proof.
  unfold updateMortgageRate, try_rethrow, bind, SQL.select_rates, SQL.update_rates.
  destruct (filter (rate_id_eq (UpdateMortgageRateInput.id input)) (mortgageRatesTable db))
    as [|y rest] eqn:Hf.
  - reflexivity.
  - cbn [List.length Z.of_nat Z.eqb].
    rewrite verify_lender_eq.
    destruct (UpdateMortgageRateInput.lender_id input) as [lid|].
    + destruct (filter (lender_id_eq lid) (lendersTable db)); [reflexivity|].
      rewrite Hf. reflexivity.
    + rewrite Hf. reflexivity.
Qed.

Lemma createLender_eq generated input db :
  createLender generated input db =
  (Ok (Some (lender_values generated input)),
   mkDB (lendersTable db ++ [lender_values generated input]) (mortgageRatesTable db)).
Proof. reflexivity. Qed.

Lemma createMortgageRate_eq generated input db :
  createMortgageRate generated input db =
  match filter (lender_id_eq (CreateMortgageRateInput.lender_id input)) (lendersTable db) with
  | [] =>
      (Throw ("Lender with ID " ++ show_int (CreateMortgageRateInput.lender_id input)
              ++ " not found")%string, db)
  | _ :: _ =>
      (Ok (created_rate_value (rate_values generated input)),
       mkDB (lendersTable db) (mortgageRatesTable db ++ [rate_values generated input]))
  end.
Proof.
  unfold createMortgageRate, try_rethrow, bind, SQL.select_lenders, insert_rate.
  destruct (filter (lender_id_eq (CreateMortgageRateInput.lender_id input)) (lendersTable db));
    reflexivity.
Qed.

Lemma filter_nil_iff {A} (p : A -> bool) (l : list A) :
  filter p l = [] <-> forall x, In x l -> p x = false.
Proof.
  split.
  - intros Hf x Hx. destruct (p x) eqn:E; [|reflexivity].
    assert (H : In x (filter p l)) by (apply filter_In; auto).
    rewrite Hf in H. destruct H.
  - apply filter_none.
Qed.

Lemma filter_cons_of_In {A} (p : A -> bool) (l : list A) (x : A) :
  In x l -> p x = true -> exists y rest, filter p l = y :: rest.
Proof.
  intros Hin Hp. destruct (filter p l) as [|y rest] eqn:E; [|eauto].
  rewrite filter_nil_iff in E. rewrite (E x Hin) in Hp. discriminate.
Qed.

(** ** Listings *)

(** X7. Every quote refers to a rate that [getMortgageRates] lists, with
    the same rate and APR, and to a lender that [getLenders] lists, with
    the same name. *)
Theorem quotes_refer_to_listed_rates_and_lenders (input : Input.t) (db : DB) :
  exists quotes rates lenders,
    getMortgageQuotes input db = (Ok quotes, db) /\
    getMortgageRates db = (Ok rates, db) /\
    getLenders db = (Ok lenders, db) /\
    forall q, In q quotes ->
      (exists v, In v rates /\
         MortgageRate.id (MortgageRateValue.row v) = Quote.rate_id q /\
         MortgageRate.lender_id (MortgageRateValue.row v) = Quote.lender_id q /\
         MortgageRateValue.interest_rate v = Quote.interest_rate q /\
         MortgageRateValue.apr v = Quote.apr q) /\
      (exists l, In l lenders /\
         Lender.id l = Quote.lender_id q /\
         Lender.name l = Quote.lender_name q).
Proof.
  eexists. eexists. eexists.
  split; [apply getMortgageQuotes_eq|]. split; [apply getMortgageRates_eq|].
  split; [apply getLenders_eq|].
  intros q Hq. apply quotes_In in Hq.
  destruct Hq as (rate & lender & Hc & ->).
  apply candidates_In in Hc. destruct Hc as (Hr & Hl & Hid & Hm).
  apply matches_criteria_spec in Hm.
  destruct Hm as (_ & _ & _ & _ & _ & Hra & Hla). split.
  - exists (flatten_rate (rate, lender)). split.
    + apply in_map. apply filter_In. split.
      * apply innerJoin_In. repeat split; [assumption | assumption | apply Z.eqb_eq, Hid].
      * simpl. rewrite Hra. reflexivity.
    + simpl. repeat split; reflexivity.
  - exists lender. split.
    + apply filter_In. split; [exact Hl | rewrite Hla; reflexivity].
    + split; [symmetry; exact Hid | reflexivity].
Qed.

Lemma quotes_refer_to_listed_rates_and_lenders_witness :
  exists quotes rates lenders,
    getMortgageQuotes testQuoteRequest twoRatesCatalog = (Ok quotes, twoRatesCatalog) /\
    getMortgageRates twoRatesCatalog = (Ok rates, twoRatesCatalog) /\
    getLenders twoRatesCatalog = (Ok lenders, twoRatesCatalog) /\
    exists v l,
      In v rates /\ MortgageRate.id (MortgageRateValue.row v) = 2%Z /\
      In l lenders /\ Lender.name l = "Test Bank"%string.
Proof.
  destruct (quotes_refer_to_listed_rates_and_lenders testQuoteRequest twoRatesCatalog)
    as (quotes & rates & lenders & Hq & Hr & Hl & H).
  pose proof (quote_of_candidate _ _ _ (testRate 2 6.500 6.750) testBank Hq
                (or_intror (or_introl eq_refl))) as Hin.
  destruct (H _ Hin) as [(v & Hv & Hvid & _) (l & Hlin & _ & Hname)].
  exists quotes, rates, lenders. repeat (split; [assumption|]).
  exists v, l. repeat (split; [assumption|]). assumption.
Defined.

(** X8. [getMortgageRates] lists a rate exactly when the rate row is
    active and a lender row has its [lender_id]; whether that lender is
    active is not looked at, so an active rate of an inactive lender is
    listed. *)
Theorem getMortgageRates_does_not_look_at_the_lender_status (db : DB) :
  exists rates,
    getMortgageRates db = (Ok rates, db) /\
    (forall v, In v rates <->
       exists rate lender,
         In rate (mortgageRatesTable db) /\
         In lender (lendersTable db) /\
         MortgageRate.lender_id rate = Lender.id lender /\
         MortgageRate.is_active rate = true /\
         v = flatten_rate (rate, lender)) /\
    (forall rate lender,
       In rate (mortgageRatesTable db) ->
       In lender (lendersTable db) ->
       MortgageRate.lender_id rate = Lender.id lender ->
       MortgageRate.is_active rate = true ->
       Lender.is_active lender = false ->
       exists v, In v rates /\ MortgageRateValue.row v = rate).
Proof.
  eexists. split; [apply getMortgageRates_eq|].
  assert (Hiff : forall v,
    In v (map flatten_rate
            (filter (fun joined => Bool.eqb (MortgageRate.is_active (fst joined)) true)
               (SQL.innerJoin (mortgageRatesTable db) (lendersTable db)
                  (fun rate lender => (MortgageRate.lender_id rate =? Lender.id lender)%Z))))
    <-> exists rate lender,
          In rate (mortgageRatesTable db) /\ In lender (lendersTable db) /\
          MortgageRate.lender_id rate = Lender.id lender /\
          MortgageRate.is_active rate = true /\ v = flatten_rate (rate, lender)).
  { intros v. rewrite in_map_iff. split.
    - intros [[rate lender] [<- Hin]]. apply filter_In in Hin.
      destruct Hin as [Hj Ha]. apply innerJoin_In in Hj.
      destruct Hj as (Hr & Hl & Hid). apply Z.eqb_eq in Hid.
      apply Bool.eqb_prop in Ha. simpl in Ha.
      exists rate, lender. repeat (split; [assumption|]). reflexivity.
    - intros (rate & lender & Hr & Hl & Hid & Ha & ->).
      exists (rate, lender). split; [reflexivity|].
      apply filter_In. split.
      + apply innerJoin_In. repeat split; [assumption | assumption | apply Z.eqb_eq, Hid].
      + simpl. rewrite Ha. reflexivity. }
  split; [exact Hiff|].
  intros rate lender Hr Hl Hid Ha _.
  exists (flatten_rate (rate, lender)). split; [|reflexivity].
  apply Hiff. exists rate, lender. repeat (split; [assumption|]). reflexivity.
Qed.

Lemma getMortgageRates_does_not_look_at_the_lender_status_witness :
  exists rates v,
    getMortgageRates (mkDB [inactiveLender] [rateOfInactiveLender])
      = (Ok rates, mkDB [inactiveLender] [rateOfInactiveLender]) /\
    In v rates /\ MortgageRateValue.row v = rateOfInactiveLender.
Proof.
  destruct (getMortgageRates_does_not_look_at_the_lender_status
              (mkDB [inactiveLender] [rateOfInactiveLender]))
    as (rates & Heq & _ & H).
  destruct (H rateOfInactiveLender inactiveLender) as (v & Hv & Hrow);
    try (left; reflexivity); try reflexivity.
  exists rates, v. auto.
Defined.

(** ** Deactivation *)


(** ** Deactivation *)

Lemma updated_lender_cases now input (l : Lender.t) (lenders : list Lender.t) :
  In l (map (fun row => if lender_id_eq (UpdateLenderInput.id input) row
                        then set_lender (lender_updateData now input) row
                        else row) lenders) ->
  exists old, In old lenders /\ Lender.id l = Lender.id old /\
    (Lender.id old = UpdateLenderInput.id input ->
     Lender.is_active l = assign (UpdateLenderInput.is_active input) (Lender.is_active old)).
Proof.
  intros Hin. apply in_map_iff in Hin. destruct Hin as [old [<- Hold]].
  exists old. split; [exact Hold|].
  unfold lender_id_eq. destruct (Z.eqb_spec (Lender.id old) (UpdateLenderInput.id input)).
  - split; reflexivity.
  - split; [reflexivity | contradiction].
Qed.

Lemma updated_rate_cases now input (r : MortgageRate.t) (rates : list MortgageRate.t) :
  In r (map (fun row => if rate_id_eq (UpdateMortgageRateInput.id input) row
                        then set_rate (rate_updateData now input) row
                        else row) rates) ->
  exists old, In old rates /\ MortgageRate.id r = MortgageRate.id old /\
    (MortgageRate.id old = UpdateMortgageRateInput.id input ->
     MortgageRate.is_active r =
       assign (UpdateMortgageRateInput.is_active input) (MortgageRate.is_active old) /\
     MortgageRate.lender_id r =
       assign (UpdateMortgageRateInput.lender_id input) (MortgageRate.lender_id old)) /\
    (MortgageRate.id old <> UpdateMortgageRateInput.id input -> r = old).
Proof.
  intros Hin. apply in_map_iff in Hin. destruct Hin as [old [<- Hold]].
  exists old. split; [exact Hold|].
  unfold rate_id_eq.
  destruct (Z.eqb_spec (MortgageRate.id old) (UpdateMortgageRateInput.id input)).
  - split; [reflexivity|]. split; [intros _; split; reflexivity | contradiction].
  - split; [reflexivity|]. split; [contradiction | reflexivity].
Qed.

(** X9. After [updateLender] has set [is_active] to false on an existing
    lender, [getLenders] lists no lender of that id and
    [getMortgageQuotes] returns, for any profile, no quote of that
    lender. *)
Theorem deactivated_lender_is_neither_listed_nor_quoted now input db :
  UpdateLenderInput.is_active input = Some false ->
  (exists row, In row (lendersTable db) /\ Lender.id row = UpdateLenderInput.id input) ->
  exists updated db',
    updateLender now input db = (Ok (Some updated), db') /\
    (exists lenders,
       getLenders db' = (Ok lenders, db') /\
       forall l, In l lenders -> Lender.id l <> UpdateLenderInput.id input) /\
    (forall profile,
       exists quotes,
         getMortgageQuotes profile db' = (Ok quotes, db') /\
         forall q, In q quotes -> Quote.lender_id q <> UpdateLenderInput.id input).
Proof.
  intros Hoff [row [Hin Hid]].
  assert (Hp : lender_id_eq (UpdateLenderInput.id input) row = true) by (apply Z.eqb_eq, Hid).
  destruct (filter_cons_of_In _ _ _ Hin Hp) as (y & rest & Hf).
  rewrite updateLender_eq, Hf. eexists. eexists. split; [reflexivity|].
  assert (Hinactive : forall l,
    In l (map (fun row => if lender_id_eq (UpdateLenderInput.id input) row
                          then set_lender (lender_updateData now input) row
                          else row) (lendersTable db)) ->
    Lender.id l = UpdateLenderInput.id input -> Lender.is_active l = false).
  { intros l Hl Hlid. apply updated_lender_cases in Hl.
    destruct Hl as (old & _ & Hsame & Hact).
    rewrite Hact by congruence. rewrite Hoff. reflexivity. }
  split.
  - eexists. split; [apply getLenders_eq|].
    intros l Hl Hlid. apply filter_In in Hl. destruct Hl as [Hl Hact].
    apply Bool.eqb_prop in Hact. simpl in Hl.
    rewrite (Hinactive l Hl Hlid) in Hact. discriminate.
  - intros profile. eexists. split; [apply getMortgageQuotes_eq|].
    intros q Hq Hqid. apply quotes_In in Hq.
    destruct Hq as (rate & lender & Hc & ->).
    apply candidates_In in Hc. destruct Hc as (_ & Hl & Hrl & Hm).
    apply matches_criteria_spec in Hm. destruct Hm as (_ & _ & _ & _ & _ & _ & Hact).
    simpl in Hl, Hqid.
    rewrite (Hinactive lender Hl) in Hact by congruence. discriminate.
Qed.

Lemma deactivated_lender_is_neither_listed_nor_quoted_witness :
  exists updated db' quotes,
    updateLender 2000%Z deactivateLender twoRatesCatalog = (Ok (Some updated), db') /\
    getLenders db' = (Ok [], db') /\
    getMortgageQuotes testQuoteRequest db' = (Ok quotes, db') /\
    forall q, In q quotes -> Quote.lender_id q <> 1%Z.
Proof.
  destruct (deactivated_lender_is_neither_listed_nor_quoted 2000%Z deactivateLender
              twoRatesCatalog eq_refl)
    as (updated & db' & Heq & _ & Hq).
  - exists testBank. split; [left; reflexivity | reflexivity].
  - destruct (Hq testQuoteRequest) as (quotes & Hquotes & Hno).
    exists updated, db', quotes. split; [exact Heq|].
    split; [|split; [exact Hquotes | exact Hno]].
    rewrite updateLender_eq in Heq. injection Heq as _ <-. reflexivity.
Defined.

(** X10. After [updateMortgageRate] has returned from setting
    [is_active] to false, [getMortgageRates] lists no rate of that id
    and [getMortgageQuotes] returns, for any profile, no quote of that
    rate. *)
Theorem deactivated_rate_is_neither_listed_nor_quoted now input db returned db' :
  UpdateMortgageRateInput.is_active input = Some false ->
  updateMortgageRate now input db = (Ok returned, db') ->
  (exists rates,
     getMortgageRates db' = (Ok rates, db') /\
     forall v, In v rates ->
       MortgageRate.id (MortgageRateValue.row v) <> UpdateMortgageRateInput.id input) /\
  (forall profile,
     exists quotes,
       getMortgageQuotes profile db' = (Ok quotes, db') /\
       forall q, In q quotes -> Quote.rate_id q <> UpdateMortgageRateInput.id input).
Proof.
  intros Hoff Hupd. rewrite updateMortgageRate_eq in Hupd.
  destruct (filter (rate_id_eq (UpdateMortgageRateInput.id input)) (mortgageRatesTable db))
    as [|y rest]; [discriminate|].
  destruct (verify_lender (UpdateMortgageRateInput.lender_id input) db) as [[u | e] dbv];
    [|discriminate].
  injection Hupd as _ <-.
  assert (Hinactive : forall r,
    In r (map (fun row => if rate_id_eq (UpdateMortgageRateInput.id input) row
                          then set_rate (rate_updateData now input) row
                          else row) (mortgageRatesTable db)) ->
    MortgageRate.id r = UpdateMortgageRateInput.id input -> MortgageRate.is_active r = false).
  { intros r Hr Hrid. apply updated_rate_cases in Hr.
    destruct Hr as (old & _ & Hsame & Hact & _).
    destruct Hact as [Hact _]; [congruence|].
    rewrite Hact, Hoff. reflexivity. }
  split.
  - eexists. split; [apply getMortgageRates_eq|].
    intros v Hv Hvid. apply in_map_iff in Hv. destruct Hv as [[rate lender] [<- Hj]].
    apply filter_In in Hj. destruct Hj as [Hj Hact].
    apply innerJoin_In in Hj. destruct Hj as (Hr & _ & _).
    apply Bool.eqb_prop in Hact. simpl in Hact, Hr, Hvid.
    rewrite (Hinactive rate Hr Hvid) in Hact. discriminate.
  - intros profile. eexists. split; [apply getMortgageQuotes_eq|].
    intros q Hq Hqid. apply quotes_In in Hq.
    destruct Hq as (rate & lender & Hc & ->).
    apply candidates_In in Hc. destruct Hc as (Hr & _ & _ & Hm).
    apply matches_criteria_spec in Hm. destruct Hm as (_ & _ & _ & _ & _ & Hact & _).
    simpl in Hr, Hqid.
    rewrite (Hinactive rate Hr Hqid) in Hact. discriminate.
Qed.

Lemma deactivated_rate_is_neither_listed_nor_quoted_witness :
  exists returned db' quotes,
    updateMortgageRate 2000%Z (rateUpdate None (Some false)) twoRatesCatalog
      = (Ok returned, db') /\
    getMortgageQuotes testQuoteRequest db' = (Ok quotes, db') /\
    forall q, In q quotes -> Quote.rate_id q <> 1%Z.
Proof.
  eexists. eexists.
  destruct (proj2 (deactivated_rate_is_neither_listed_nor_quoted 2000%Z
                     (rateUpdate None (Some false)) twoRatesCatalog _ _ eq_refl eq_refl)
              testQuoteRequest)
    as (quotes & Hquotes & Hno).
  exists quotes. split; [reflexivity|]. split; [exact Hquotes | exact Hno].
Defined.

(** ** The lender check of [updateMortgageRate] *)

(** X11. When the rate exists but the [lender_id] of the input is the
    id of no lender, [updateMortgageRate] throws an error whose message
    contains "not found" and the database is left as it was. *)
Theorem updateMortgageRate_rejects_an_unknown_lender now input db lid :
  (exists row, In row (mortgageRatesTable db) /\
               MortgageRate.id row = UpdateMortgageRateInput.id input) ->
  UpdateMortgageRateInput.lender_id input = Some lid ->
  (forall lender, In lender (lendersTable db) -> Lender.id lender <> lid) ->
  exists message,
    updateMortgageRate now input db = (Throw message, db) /\
    includes "not found" message = true.
Proof.
  intros [row [Hin Hid]] Hlid Hnone.
  assert (Hp : rate_id_eq (UpdateMortgageRateInput.id input) row = true)
    by (apply Z.eqb_eq, Hid).
  destruct (filter_cons_of_In _ _ _ Hin Hp) as (y & rest & Hf).
  rewrite updateMortgageRate_eq, Hf, verify_lender_eq, Hlid.
  rewrite filter_none.
  - eexists. split; [reflexivity | apply not_found_message].
  - intros lender Hl. apply Z.eqb_neq, Hnone, Hl.
Qed.

Lemma updateMortgageRate_rejects_an_unknown_lender_witness :
  exists message,
    updateMortgageRate 2000%Z (rateUpdate (Some 99999%Z) None) twoRatesCatalog
      = (Throw message, twoRatesCatalog) /\
    includes "not found" message = true.
Proof.
  apply (updateMortgageRate_rejects_an_unknown_lender 2000%Z
           (rateUpdate (Some 99999%Z) None) twoRatesCatalog 99999%Z).
  - exists (testRate 1 7.000 7.500). split; [left; reflexivity | reflexivity].
  - reflexivity.
  - intros lender [<- | []]. discriminate.
Defined.

(** ** Repeating an update *)

Lemma assign_twice {A} (given : option A) (old : A) :
  assign given (assign given old) = assign given old.
Proof. destruct given; reflexivity. Qed.

Lemma set_lender_twice now1 now2 input row :
  set_lender (lender_updateData now2 input) (set_lender (lender_updateData now1 input) row)
  = set_lender (lender_updateData now2 input) row.
Proof.
  unfold set_lender, lender_updateData; simpl.
  rewrite !assign_twice. reflexivity.
Qed.

Lemma set_rate_twice now1 now2 input row :
  set_rate (rate_updateData now2 input) (set_rate (rate_updateData now1 input) row)
  = set_rate (rate_updateData now2 input) row.
Proof.
  unfold set_rate, rate_updateData; simpl.
  rewrite !assign_twice. reflexivity.
Qed.

Lemma filter_map_same {A} (p : A -> bool) (g : A -> A) (l : list A) :
  (forall x, p (g x) = p x) ->
  filter p (map g l) = map g (filter p l).
Proof.
  intros H. induction l as [|x l IH]; simpl; [reflexivity|].
  rewrite H. destruct (p x); simpl; rewrite IH; reflexivity.
Qed.

Lemma update_rows_twice {A} (p : A -> bool) (f1 f2 : A -> A) (l : list A) :
  (forall x, p (f1 x) = p x) ->
  (forall x, f2 (f1 x) = f2 x) ->
  map (fun row => if p row then f2 row else row)
    (map (fun row => if p row then f1 row else row) l)
  = map (fun row => if p row then f2 row else row) l.
Proof.
  intros Hp Hf. rewrite map_map. apply map_ext. intros x.
  destruct (p x) eqn:E; [rewrite Hp, E; apply Hf | rewrite E; reflexivity].
Qed.

Lemma filter_update_rows {A} (p : A -> bool) (f : A -> A) (l : list A) :
  (forall x, p (f x) = p x) ->
  filter p (map (fun row => if p row then f row else row) l) = map f (filter p l).
Proof.
  intros Hp. induction l as [|x l IH]; simpl; [reflexivity|].
  destruct (p x) eqn:E.
  - rewrite Hp, E. simpl. rewrite IH. reflexivity.
  - rewrite E. exact IH.
Qed.

(** X12. Giving the same update a second time changes nothing but
    [updated_at]: the second call, made on the database the first one
    left, returns the same value and leaves the same database as that
    call made on the initial database.  This holds for [updateLender]
    and for [updateMortgageRate], also when they throw. *)
Theorem repeating_an_update_only_moves_updated_at :
  (forall now1 now2 input db,
     updateLender now2 input (snd (updateLender now1 input db))
     = updateLender now2 input db) /\
  (forall now1 now2 input db,
     updateMortgageRate now2 input (snd (updateMortgageRate now1 input db))
     = updateMortgageRate now2 input db).
Proof.
  split; intros now1 now2 input db.
  - rewrite (updateLender_eq now1).
    destruct (filter (lender_id_eq (UpdateLenderInput.id input)) (lendersTable db))
      as [|y rest] eqn:Hf; [reflexivity|].
    cbn [snd]. rewrite !updateLender_eq. cbn [lendersTable mortgageRatesTable].
    rewrite filter_update_rows by reflexivity.
    rewrite update_rows_twice by (first [reflexivity | intros; apply set_lender_twice]).
    rewrite Hf. cbn [map]. rewrite set_lender_twice. reflexivity.
  - rewrite (updateMortgageRate_eq now1).
    destruct (filter (rate_id_eq (UpdateMortgageRateInput.id input)) (mortgageRatesTable db))
      as [|y rest] eqn:Hf; [reflexivity|].
    rewrite verify_lender_eq.
    destruct (UpdateMortgageRateInput.lender_id input) as [lid|] eqn:Hlid.
    + destruct (filter (lender_id_eq lid) (lendersTable db)) as [|l ls] eqn:Hl;
        [reflexivity|].
      cbn [snd]. rewrite !updateMortgageRate_eq, !verify_lender_eq, Hlid.
      cbn [lendersTable mortgageRatesTable]. rewrite Hl.
      rewrite filter_update_rows by reflexivity.
      rewrite update_rows_twice by (first [reflexivity | intros; apply set_rate_twice]).
      rewrite Hf. cbn [map]. rewrite set_rate_twice. reflexivity.
    + cbn [snd]. rewrite !updateMortgageRate_eq, !verify_lender_eq, Hlid.
      cbn [lendersTable mortgageRatesTable].
      rewrite filter_update_rows by reflexivity.
      rewrite update_rows_twice by (first [reflexivity | intros; apply set_rate_twice]).
      rewrite Hf. cbn [map]. rewrite set_rate_twice. reflexivity.
Qed.

(** ** Rates and their lenders *)

Lemma rates_have_lenders_intro (lenders lenders' : list Lender.t)
    (rates rates' : list MortgageRate.t) :
  (forall id, (exists l, In l lenders /\ Lender.id l = id) ->
              (exists l, In l lenders' /\ Lender.id l = id)) ->
  (forall r, In r rates' ->
     In r rates \/ exists l, In l lenders' /\ Lender.id l = MortgageRate.lender_id r) ->
  rates_have_lenders (mkDB lenders rates) ->
  rates_have_lenders (mkDB lenders' rates').
Proof.
  intros Hl Hr H rate Hrate. simpl in *.
  destruct (Hr rate Hrate) as [Hold | Hnew]; [|exact Hnew].
  apply Hl. exact (H rate Hold).
Qed.

Lemma updated_lenders_keep_ids now input (lenders : list Lender.t) id :
  (exists l, In l lenders /\ Lender.id l = id) ->
  exists l, In l (map (fun row => if lender_id_eq (UpdateLenderInput.id input) row
                                  then set_lender (lender_updateData now input) row
                                  else row) lenders) /\ Lender.id l = id.
Proof.
  intros [l [Hl Hid]].
  exists (if lender_id_eq (UpdateLenderInput.id input) l
          then set_lender (lender_updateData now input) l else l).
  split.
  - apply (in_map (fun row => if lender_id_eq (UpdateLenderInput.id input) row
                              then set_lender (lender_updateData now input) row
                              else row)). exact Hl.
  - destruct (lender_id_eq (UpdateLenderInput.id input) l); exact Hid.
Qed.

Lemma db_eta (db : DB) : db = mkDB (lendersTable db) (mortgageRatesTable db).
Proof. destruct db; reflexivity. Qed.

(** X13. The handlers that write keep every rate attached to a lender:
    if each rate row has a lender row of its [lender_id] before
    [updateLender], [updateMortgageRate], [createLender] or
    [createMortgageRate], it has one afterwards, whether the call
    returns or throws. *)
Theorem writes_keep_rates_attached_to_lenders (db : DB) :
  rates_have_lenders db ->
  (forall now input, rates_have_lenders (snd (updateLender now input db))) /\
  (forall now input, rates_have_lenders (snd (updateMortgageRate now input db))) /\
  (forall generated input, rates_have_lenders (snd (createLender generated input db))) /\
  (forall generated input, rates_have_lenders (snd (createMortgageRate generated input db))).
Proof.
  intros H0. pose proof H0 as H. rewrite (db_eta db) in H.
  split; [|split; [|split]].
  - intros now input. rewrite updateLender_eq.
    destruct (filter _ _) as [|y0 rest0]; cbn [snd]; [exact H0|].
    revert H. apply rates_have_lenders_intro.
    + intros id. apply updated_lenders_keep_ids.
    + intros r Hr. left. exact Hr.
  - intros now input. rewrite updateMortgageRate_eq.
    destruct (filter _ _) as [|y0 rest0]; cbn [snd]; [exact H0|].
    rewrite verify_lender_eq.
    destruct (UpdateMortgageRateInput.lender_id input) as [lid|] eqn:Hlid.
    + destruct (filter (lender_id_eq lid) (lendersTable db)) as [|l ls] eqn:Hl;
        cbn [snd]; [exact H0|].
      assert (Hlin : In l (filter (lender_id_eq lid) (lendersTable db)))
        by (rewrite Hl; left; reflexivity).
      apply filter_In in Hlin. destruct Hlin as [Hlin Hlp]. apply Z.eqb_eq in Hlp.
      revert H. apply rates_have_lenders_intro; [auto|].
      intros r Hr. apply updated_rate_cases in Hr.
      destruct Hr as (old & Hold & _ & Hupd & Hsame).
      destruct (Z.eq_dec (MortgageRate.id old) (UpdateMortgageRateInput.id input)) as [E|E].
      * right. destruct (Hupd E) as [_ Hlender]. rewrite Hlender, Hlid. simpl.
        exists l. auto.
      * left. rewrite (Hsame E). exact Hold.
    + cbn [snd]. intros rate Hrate. simpl in Hrate |- *.
      apply updated_rate_cases in Hrate.
      destruct Hrate as (old & Hold & _ & Hupd & Hsame).
      destruct (Z.eq_dec (MortgageRate.id old) (UpdateMortgageRateInput.id input)) as [E|E].
      * destruct (Hupd E) as [_ Hlender]. rewrite Hlender, Hlid. simpl.
        exact (H old Hold).
      * rewrite (Hsame E). exact (H old Hold).
  - intros generated input. rewrite createLender_eq. cbn [snd].
    revert H. apply rates_have_lenders_intro.
    + intros id [l [Hl Hid]]. exists l. split; [apply in_or_app; left; exact Hl | exact Hid].
    + intros r Hr. left. exact Hr.
  - intros generated input. rewrite createMortgageRate_eq.
    destruct (filter (lender_id_eq (CreateMortgageRateInput.lender_id input)) (lendersTable db))
      as [|l ls] eqn:Hl; cbn [snd]; [exact H0|].
    assert (Hlin : In l (filter (lender_id_eq (CreateMortgageRateInput.lender_id input))
                           (lendersTable db)))
      by (rewrite Hl; left; reflexivity).
    apply filter_In in Hlin. destruct Hlin as [Hlin Hlp]. apply Z.eqb_eq in Hlp.
    revert H. apply rates_have_lenders_intro; [auto|].
    intros r Hr. apply in_app_or in Hr. destruct Hr as [Hr | [<- | []]].
    + left. exact Hr.
    + right. exists l. split; [exact Hlin | exact Hlp].
Qed.

Lemma writes_keep_rates_attached_to_lenders_witness :
  rates_have_lenders
    (snd (updateMortgageRate 2000%Z (rateUpdate (Some 1%Z) None) twoRatesCatalog)) /\
  rates_have_lenders (snd (createMortgageRate testGenerated testRateInput twoRatesCatalog)).
Proof.
  assert (H : rates_have_lenders twoRatesCatalog).
  { intros rate [<- | [<- | []]]; exists testBank; split;
      first [left; reflexivity | reflexivity]. }
  destruct (writes_keep_rates_attached_to_lenders twoRatesCatalog H)
    as (_ & Hupd & _ & Hcreate).
  split; [apply Hupd | apply Hcreate].
Defined.

(** ** Creating rates and lenders *)

(** X14. When no lender has the [lender_id] of the input,
    [createMortgageRate] throws an error whose message contains
    "not found" and inserts nothing. *)
Theorem createMortgageRate_rejects_an_unknown_lender generated input db :
  (forall lender, In lender (lendersTable db) ->
                  Lender.id lender <> CreateMortgageRateInput.lender_id input) ->
  exists message,
    createMortgageRate generated input db = (Throw message, db) /\
    includes "not found" message = true.
Proof.
  intros Hnone. rewrite createMortgageRate_eq, filter_none.
  - eexists. split; [reflexivity | apply not_found_message].
  - intros lender Hl. apply Z.eqb_neq, Hnone, Hl.
Qed.

Lemma createMortgageRate_rejects_an_unknown_lender_witness :
  exists message,
    createMortgageRate testGenerated testRateInput (mkDB [inactiveLender] [])
      = (Throw message, mkDB [inactiveLender] []) /\
    includes "not found" message = true.
Proof.
  apply createMortgageRate_rejects_an_unknown_lender.
  intros lender [<- | []]. discriminate.
Defined.




(** X16. [createLender] always returns: it appends one lender row with
    the generated id and leaves the rows there were and the rate table
    as they are.  On the database it leaves, [getLenders] lists the new
    lender when the input is active, and a rate can be created for it
    and it can be updated, without a "not found" error. *)
Theorem created_lender_is_listed_and_usable generated input db :
  exists row db',
    createLender generated input db = (Ok (Some row), db') /\
    Lender.id row = Generated.id generated /\
    Lender.name row = CreateLenderInput.name input /\
    lendersTable db' = (lendersTable db ++ [row])%list /\
    mortgageRatesTable db' = mortgageRatesTable db /\
    (CreateLenderInput.is_active input = true ->
     exists lenders, getLenders db' = (Ok lenders, db') /\ In row lenders) /\
    (forall generated' rate_input,
       CreateMortgageRateInput.lender_id rate_input = Generated.id generated ->
       exists rate db'', createMortgageRate generated' rate_input db' = (Ok rate, db'')) /\
    (forall now update,
       UpdateLenderInput.id update = Generated.id generated ->
       exists updated db'', updateLender now update db' = (Ok (Some updated), db'')).
Proof.
  rewrite createLender_eq. eexists. eexists. split; [reflexivity|].
  split; [reflexivity|]. split; [reflexivity|]. split; [reflexivity|].
  split; [reflexivity|].
  assert (Hin : In (lender_values generated input)
                   (lendersTable db ++ [lender_values generated input]))
    by (apply in_or_app; right; left; reflexivity).
  split; [|split].
  - intros Hact. eexists. split; [apply getLenders_eq|].
    apply filter_In. split; [exact Hin|]. simpl. rewrite Hact. reflexivity.
  - intros generated' rate_input Hid. rewrite createMortgageRate_eq.
    assert (Hp : lender_id_eq (CreateMortgageRateInput.lender_id rate_input)
                   (lender_values generated input) = true)
      by (apply Z.eqb_eq; symmetry; exact Hid).
    destruct (filter_cons_of_In _ _ _ Hin Hp) as (y & rest & Hf).
    cbn [lendersTable]. rewrite Hf. eexists. eexists. reflexivity.
  - intros now update Hid. rewrite updateLender_eq.
    assert (Hp : lender_id_eq (UpdateLenderInput.id update)
                   (lender_values generated input) = true)
      by (apply Z.eqb_eq; symmetry; exact Hid).
    destruct (filter_cons_of_In _ _ _ Hin Hp) as (y & rest & Hf).
    cbn [lendersTable]. rewrite Hf. eexists. eexists. reflexivity.
Qed.

Lemma created_lender_is_listed_and_usable_witness :
  exists row db' lenders rate db'',
    createLender testGenerated testLenderInput twoRatesCatalog = (Ok (Some row), db') /\
    getLenders db' = (Ok lenders, db') /\ In row lenders /\
    createMortgageRate testGenerated
      {| CreateMortgageRateInput.lender_id := 42;
         CreateMortgageRateInput.loan_type := fha;
         CreateMortgageRateInput.loan_term := term_15;
         CreateMortgageRateInput.interest_rate := 5.875;
         CreateMortgageRateInput.apr := 6.125;
         CreateMortgageRateInput.points := 1.50;
         CreateMortgageRateInput.min_credit_score := 580;
         CreateMortgageRateInput.max_loan_amount := 500000;
         CreateMortgageRateInput.min_down_payment_percent := 3.50;
         CreateMortgageRateInput.closing_costs := None;
         CreateMortgageRateInput.is_active := true |} db' = (Ok rate, db'').
Proof.
  destruct (created_lender_is_listed_and_usable testGenerated testLenderInput twoRatesCatalog)
    as (row & db' & Hc & _ & _ & _ & _ & Hlist & Hrate & _).
  destruct (Hlist eq_refl) as (lenders & Hl & Hin).
  destruct (Hrate testGenerated
              {| CreateMortgageRateInput.lender_id := 42;
                 CreateMortgageRateInput.loan_type := fha;
                 CreateMortgageRateInput.loan_term := term_15;
                 CreateMortgageRateInput.interest_rate := 5.875;
                 CreateMortgageRateInput.apr := 6.125;
                 CreateMortgageRateInput.points := 1.50;
                 CreateMortgageRateInput.min_credit_score := 580;
                 CreateMortgageRateInput.max_loan_amount := 500000;
                 CreateMortgageRateInput.min_down_payment_percent := 3.50;
                 CreateMortgageRateInput.closing_costs := None;
                 CreateMortgageRateInput.is_active := true |} eq_refl)
    as (rate & db'' & Hr).
  exists row, db', lenders, rate, db''. auto.
Defined.

(** ** Quote requests *)

Lemma insert_desc_In (x y : QuoteRequest.t) (l : list QuoteRequest.t) :
  In y (insert_desc x l) <-> y = x \/ In y l.
Proof.
  induction l as [|z l IH]; simpl.
  - intuition.
  - destruct (QuoteRequest.created_at z <=? QuoteRequest.created_at x)%Z;
      simpl; rewrite ?IH; intuition.
Qed.

Lemma orderBy_created_at_desc_In (y : QuoteRequest.t) (l : list QuoteRequest.t) :
  In y (orderBy_created_at_desc l) <-> In y l.
Proof.
  induction l as [|x l IH]; simpl; [reflexivity|].
  rewrite insert_desc_In, IH. intuition.
Qed.

Lemma insert_desc_length (x : QuoteRequest.t) (l : list QuoteRequest.t) :
  List.length (insert_desc x l) = S (List.length l).
Proof.
  induction l as [|z l IH]; simpl; [reflexivity|].
  destruct (QuoteRequest.created_at z <=? QuoteRequest.created_at x)%Z; simpl; congruence.
Qed.

Lemma orderBy_created_at_desc_length (l : list QuoteRequest.t) :
  List.length (orderBy_created_at_desc l) = List.length l.
Proof.
  induction l as [|x l IH]; simpl; [reflexivity|].
  rewrite insert_desc_length, IH. reflexivity.
Qed.

Lemma insert_desc_sorted (x : QuoteRequest.t) (l : list QuoteRequest.t) :
  StronglySorted (fun a b => (QuoteRequest.created_at b <= QuoteRequest.created_at a)%Z) l ->
  StronglySorted (fun a b => (QuoteRequest.created_at b <= QuoteRequest.created_at a)%Z)
    (insert_desc x l).
Proof.
  induction 1 as [|z l Hl IH Hz]; simpl.
  - constructor; constructor.
  - destruct (Z.leb_spec (QuoteRequest.created_at z) (QuoteRequest.created_at x)) as [E|E].
    + constructor; [constructor; assumption|].
      constructor; [exact E|].
      rewrite Forall_forall in Hz |- *. intros w Hw. specialize (Hz w Hw). lia.
    + constructor; [exact IH|].
      rewrite Forall_forall in Hz |- *. intros w Hw.
      apply insert_desc_In in Hw. destruct Hw as [-> | Hw]; [lia | auto].
Qed.

Lemma orderBy_created_at_desc_sorted (l : list QuoteRequest.t) :
  StronglySorted (fun a b => (QuoteRequest.created_at b <= QuoteRequest.created_at a)%Z)
    (orderBy_created_at_desc l).
Proof.
  induction l as [|x l IH]; simpl; [constructor | apply insert_desc_sorted, IH].
Qed.

(** X17. [getMortgageQuoteRequests] returns every stored request once,
    the most recent first ([created_at] never increases along the
    result), and leaves the table as it is. *)
Theorem quote_requests_most_recent_first (table : list QuoteRequest.t) :
  exists requests,
    getMortgageQuoteRequests table = (Ok requests, table) /\
    StronglySorted newer_first requests /\
    List.length requests = List.length table /\
    forall row, In row table <-> In (request_value row) requests.
Proof.
  eexists. split; [reflexivity|]. split; [|split].
  - eapply StronglySorted_map; [|apply orderBy_created_at_desc_sorted].
    intros a b H. exact H.
  - rewrite length_map. apply orderBy_created_at_desc_length.
  - intros row. rewrite <- (orderBy_created_at_desc_In row table). split.
    + apply in_map.
    + intros H. apply in_map_iff in H. destruct H as [row' [E H]].
      assert (E' : row' = row) by exact (f_equal QuoteRequestValue.row E).
      rewrite <- E'. exact H.
Qed.

Lemma quote_requests_most_recent_first_witness :
  exists requests,
    getMortgageQuoteRequests
      [request_values 1 100%Z testQuoteRequest; request_values 2 300%Z testQuoteRequest;
       request_values 3 200%Z testQuoteRequest]
    = (Ok requests,
       [request_values 1 100%Z testQuoteRequest; request_values 2 300%Z testQuoteRequest;
        request_values 3 200%Z testQuoteRequest]) /\
    StronglySorted newer_first requests /\
    In (request_value (request_values 3 200%Z testQuoteRequest)) requests.
Proof.
  destruct (quote_requests_most_recent_first
              [request_values 1 100%Z testQuoteRequest; request_values 2 300%Z testQuoteRequest;
               request_values 3 200%Z testQuoteRequest])
    as (requests & Heq & Hs & _ & Hin).
  exists requests. split; [exact Heq|]. split; [exact Hs|].
  apply Hin. right. right. left. reflexivity.
Defined.

Lemma orderBy_created_at_desc_newest (x : QuoteRequest.t) (l : list QuoteRequest.t) :
  (forall row, In row l -> (QuoteRequest.created_at row < QuoteRequest.created_at x)%Z) ->
  orderBy_created_at_desc (l ++ [x]) = x :: orderBy_created_at_desc l.
Proof.
  induction l as [|a l IH]; intros Hold; [reflexivity|].
  change (orderBy_created_at_desc ((a :: l) ++ [x]))
    with (insert_desc a (orderBy_created_at_desc (l ++ [x]))).
  change (orderBy_created_at_desc (a :: l)) with (insert_desc a (orderBy_created_at_desc l)).
  rewrite IH by (intros; apply Hold; right; assumption).
  cbn [insert_desc].
  destruct (Z.leb_spec (QuoteRequest.created_at x) (QuoteRequest.created_at a)) as [E|E].
  - specialize (Hold a (or_introl eq_refl)). lia.
  - reflexivity.
Qed.

(** X18. A request created at a time later than every stored one comes
    back first: [createMortgageQuoteRequest] returns the request with
    the numbers of the input (a missing debt-to-income ratio stays
    [null]), and [getMortgageQuoteRequests] on the table it leaves
    returns that same value followed by what it returned before. *)
Theorem created_request_is_listed_first id created_at input table :
  (forall row, In row table -> (QuoteRequest.created_at row < created_at)%Z) ->
  exists created table' before,
    createMortgageQuoteRequest id created_at input table = (Ok created, table') /\
    QuoteRequestValue.loan_amount created = Fin (Input.loan_amount input) /\
    QuoteRequestValue.property_value created = Fin (Input.property_value input) /\
    QuoteRequestValue.down_payment created = Fin (Input.down_payment input) /\
    QuoteRequestValue.debt_to_income_ratio created =
      option_map Fin (Input.debt_to_income_ratio input) /\
    getMortgageQuoteRequests table = (Ok before, table) /\
    getMortgageQuoteRequests table' = (Ok (created :: before), table').
Proof.
  intros Hold. eexists. eexists. eexists.
  split; [reflexivity|]. split; [reflexivity|]. split; [reflexivity|].
  split; [reflexivity|].
  split; [simpl; destruct (Input.debt_to_income_ratio input); reflexivity|].
  split; [reflexivity|].
  unfold getMortgageQuoteRequests.
  rewrite (orderBy_created_at_desc_newest (request_values id created_at input) table Hold).
  reflexivity.
Qed.

Lemma created_request_is_listed_first_witness :
  exists created table' before,
    createMortgageQuoteRequest 4 400%Z testQuoteRequest
      [request_values 1 100%Z testQuoteRequest; request_values 2 300%Z testQuoteRequest]
    = (Ok created, table') /\
    QuoteRequestValue.loan_amount created = Fin 400000 /\
    getMortgageQuoteRequests table' = (Ok (created :: before), table').
Proof.
  destruct (created_request_is_listed_first 4 400%Z testQuoteRequest
              [request_values 1 100%Z testQuoteRequest; request_values 2 300%Z testQuoteRequest])
    as (created & table' & before & Hc & Hla & _ & _ & _ & _ & Hg).
  - intros row [<- | [<- | []]]; reflexivity.
  - exists created, table', before. auto.
Defined.

(** ** A new lender and the quotes *)

Lemma innerJoin_new_right {A B} (left : list A) (right : list B) (b : B)
    (on : A -> B -> bool) :
  (forall a, In a left -> on a b = false) ->
  SQL.innerJoin left (right ++ [b]) on = SQL.innerJoin left right on.
Proof.
  unfold SQL.innerJoin. induction left as [|a left IH]; intros H; [reflexivity|].
  simpl. rewrite filter_app. simpl. rewrite (H a (or_introl eq_refl)).
  rewrite app_nil_r, IH; [reflexivity|].
  intros a' Ha'. apply H. right. exact Ha'.
Qed.

(** X19. Creating a lender whose generated id no rate refers to changes
    no result of [getMortgageQuotes]: every profile gets the same
    quotes, in the same order, before and after [createLender]. *)
Theorem creating_a_lender_changes_no_quote generated input db profile :
  (forall rate, In rate (mortgageRatesTable db) ->
                MortgageRate.lender_id rate <> Generated.id generated) ->
  fst (getMortgageQuotes profile (snd (createLender generated input db)))
  = fst (getMortgageQuotes profile db).
Proof.
  intros Hfresh. rewrite createLender_eq. cbn [snd].
  rewrite !getMortgageQuotes_eq. cbn [fst]. unfold candidates.
  cbn [lendersTable mortgageRatesTable].
  rewrite innerJoin_new_right; [reflexivity|].
  intros rate Hrate. apply Z.eqb_neq. simpl. apply Hfresh, Hrate.
Qed.

Lemma creating_a_lender_changes_no_quote_witness :
  fst (getMortgageQuotes testQuoteRequest
         (snd (createLender testGenerated testLenderInput twoRatesCatalog)))
  = fst (getMortgageQuotes testQuoteRequest twoRatesCatalog).
Proof.
  apply creating_a_lender_changes_no_quote.
  intros rate [<- | [<- | []]]; discriminate.
Defined.
